(** * becca: the [Brain] control loop and its checkpoint protocol

    A shallow embedding of [becca/core/brain.py].  The file follows the
    class top to bottom: the collaborators [Affect] and [Level] (whose
    modules are not part of the sources at hand) appear as interfaces, the
    [Brain] object as a record, and each method as a computation in a small
    state-and-exception monad over a machine made of the object, the files
    on disk and the outcomes the operating system is going to give to the
    next writes.  Every computation also yields the list of observable
    events it performed, so that ordering properties can be stated. *)

From Stdlib Require Import ZArith QArith Lia Ascii String.
From stdpp Require Import base option list strings gmap.

Local Open Scope string_scope.
Local Open Scope Z_scope.

(** ** Values *)

(** Entries of numpy arrays, rewards and satisfaction are Python floats.
    [brain.py] never computes with them: it builds a vector of zeros,
    concatenates and slices.  They are modelled as rationals. *)
Definition val : Type := Q.

(** The two values an action entry is supposed to take. *)
Definition binary (v : val) : Prop := v = 0%Q \/ v = 1%Q.

(** [np.zeros(n)]; a negative [n] raises [ValueError], see [Brain_init]. *)
Definition np_zeros (n : Z) : list val := repeat 0%Q (Z.to_nat n).

(** [a[:-1]]: everything but the last entry, the empty vector staying empty. *)
Definition drop_last (a : list val) : list val := removelast a.

(** ** Exceptions *)

Inductive exn : Type :=
  | IOError
  | PickleError
  | PicklingError
  | UnpicklingError
  | EOFError
  | KeyboardInterrupt
  | ZeroDivisionError
  | IndexError
  | ValueError.

Definition exn_eqb (a b : exn) : bool :=
  match a, b with
  | IOError, IOError | PickleError, PickleError
  | PicklingError, PicklingError | UnpicklingError, UnpicklingError
  | EOFError, EOFError | KeyboardInterrupt, KeyboardInterrupt
  | ZeroDivisionError, ZeroDivisionError | IndexError, IndexError
  | ValueError, ValueError => true
  | _, _ => false
  end.

(** [isinstance e cls] for exception classes: [PicklingError] and
    [UnpicklingError] derive from [PickleError]. *)
Definition isinstance (e cls : exn) : bool :=
  exn_eqb e cls ||
  match cls, e with
  | PickleError, (PicklingError | UnpicklingError) => true
  | _, _ => false
  end.

Inductive result (X : Type) : Type :=
  | Ret (x : X)
  | Raise (e : exn).
Arguments Ret {X} x.
Arguments Raise {X} e.

(** ** Integer and float arithmetic of the backup test *)

(** [float(n)] for a Python int: the nearest double, ties to even; exact
    while [n] fits in 53 bits.  The value is kept as the integer it
    denotes; ints beyond the range of doubles, whose conversion raises, are
    not told apart. *)
Definition float_of_int (n : Z) : Z :=
  let e := Z.log2 (Z.abs n) - 52 in
  if e <=? 0 then n
  else
    let q := n / 2 ^ e in
    let r := n mod 2 ^ e in
    let h := 2 ^ (e - 1) in
    (if r <? h then q
     else if h <? r then q + 1
     else if Z.even q then q else q + 1) * 2 ^ e.

(** [t % interval] where [t] is an int and [interval] an integer-valued
    float such as [1e5]: [t] is converted to a float first, the remainder
    of two integer-valued floats has the sign of the divisor and is zero
    exactly when the division is exact, and a zero divisor raises.  The
    source only compares the result with 0. *)
Definition py_mod (t interval : Z) : result Z :=
  if interval =? 0 then Raise ZeroDivisionError
  else Ret (float_of_int t `mod` interval).

(** ** Paths *)

(** [os.path.join(a, b)] on a POSIX system. *)
Definition is_absolute (p : string) : bool :=
  match p with
  | String c _ => if Ascii.ascii_dec c "/"%char then true else false
  | EmptyString => false
  end.

Fixpoint ends_with_slash (p : string) : bool :=
  match p with
  | EmptyString => false
  | String c EmptyString => if Ascii.ascii_dec c "/"%char then true else false
  | String _ rest => ends_with_slash rest
  end.

Definition os_path_join (a b : string) : string :=
  if is_absolute b then b
  else if String.eqb a "" || ends_with_slash a then a +:+ b
  else a +:+ "/" +:+ b.

(** ['{0}.bak'.format(path)] *)
Definition bak (path : string) : string := path +:+ ".bak".

(** ** The collaborators *)

(** A level exposes the two goal vectors the controller reads and writes;
    everything else it holds is kept abstract.  The assignments
    [levels[i].sequence_goals = levels[i + 1].element_goals] and
    [self.actions = self.levels[0].element_goals] bind a second name to the
    same array; [brain.py] never writes into an array in place, and every
    call binds these names again after the levels have been stepped, so the
    vectors are kept by value. *)
Record Level (I : Type) : Type := mkLevel {
  element_goals : list val;
  sequence_goals : list val;
  internals : I
}.
Arguments mkLevel {I} _ _ _.
Arguments element_goals {I} _.
Arguments sequence_goals {I} _.
Arguments internals {I} _.

(** [level.sequence_goals = g] *)
Definition set_sequence_goals {I} (g : list val) (l : Level I) : Level I :=
  mkLevel (element_goals l) g (internals l).

(** [becca.core.level.Level]: the constructor
    [Level(level_index, num_elements, num_sequences)] and
    [step(element_activities, reward, satisfaction)], which updates the
    level and returns its sequence activities. *)
Class LevelEngine (I : Type) : Type := {
  Level_new : Z -> Z -> Z -> Level I;
  Level_step : Level I -> list val -> val -> val -> Level I * list val
}.

(** [becca.core.affect.Affect]: the constructor and [update(reward)], which
    updates the tracker and returns the satisfaction. *)
Class AffectTracker (A : Type) : Type := {
  Affect_new : A;
  Affect_update : A -> val -> A * val
}.

(** ** The brain *)

Record Brain (A I : Type) : Type := mkBrain {
  num_sensors : Z;
  num_actions : Z;
  backup_interval : Z;
  name : string;
  log_dir : string;
  pickle_filename : string;
  affect : A;
  satisfaction : val;
  levels : list (Level I);
  actions : list val;
  timestep : Z
}.
Arguments mkBrain {A I} _ _ _ _ _ _ _ _ _ _ _.
Arguments num_sensors {A I} _.
Arguments num_actions {A I} _.
Arguments backup_interval {A I} _.
Arguments name {A I} _.
Arguments log_dir {A I} _.
Arguments pickle_filename {A I} _.
Arguments affect {A I} _.
Arguments satisfaction {A I} _.
Arguments levels {A I} _.
Arguments actions {A I} _.
Arguments timestep {A I} _.

(** What a file holds: the pickle of a brain, or bytes on which
    [pickle.load] raises the given exception. *)
Inductive content (A I : Type) : Type :=
  | Pickled (b : Brain A I)
  | Corrupt (e : exn).
Arguments Pickled {A I} b.
Arguments Corrupt {A I} e.

(** What the operating system does with one [open(path, 'wb')] followed by
    [pickle.dump]: both succeed, [open] raises and the file is untouched,
    or [dump] raises [e] and leaves bytes whose loading raises [r]. *)
Inductive write_outcome : Type :=
  | WriteOk
  | OpenRaises (e : exn)
  | DumpRaises (e r : exn).

(** Lines printed on standard output. *)
Inductive message : Type :=
  | MsgActions (a : list val)
  | MsgFileError (e : exn)
  | MsgPicklingError (e : exn)
  | MsgRestored (t : Z) (path : string)
  | MsgMismatch (path : string)
  | MsgCouldntOpen (path : string)
  | MsgUnpickleError (e : exn).

(** Observable events of a computation, oldest first. *)
Inductive event : Type :=
  | EvStep (i : nat) (element_activities : list val) (reward sat : val)
  | EvSetSequenceGoals (i : nat) (g : list val)
  | EvBackup
  | EvWrite (path : string)
  | EvRead (path : string)
  | EvPrint (msg : message).

(** A Python object as a method may return it. *)
Inductive pyobject (A I : Type) : Type :=
  | PyNone
  | PyBrain (b : Brain A I).
Arguments PyNone {A I}.
Arguments PyBrain {A I} b.

(** ** The machine and its monad *)

(** The object [self], the files and the outcomes of the coming writes (an
    exhausted list means that writes succeed). *)
Record Machine (A I : Type) : Type := mkMachine {
  self : Brain A I;
  files : gmap string (content A I);
  pending : list write_outcome
}.
Arguments mkMachine {A I} _ _ _.
Arguments self {A I} _.
Arguments files {A I} _.
Arguments pending {A I} _.

(** What a computation leaves behind: its result, the machine it ends in
    and the events it performed.  A raising computation keeps the changes
    and events that came before the exception. *)
Record Out (A I X : Type) : Type := mkOut {
  res : result X;
  final : Machine A I;
  emitted : list event
}.
Arguments mkOut {A I X} _ _ _.
Arguments res {A I X} _.
Arguments final {A I X} _.
Arguments emitted {A I X} _.

Definition M (A I X : Type) : Type := Machine A I -> Out A I X.

Section Monad.
Context {A I : Type}.

Definition ret {X} (x : X) : M A I X :=
  fun m => mkOut (Ret x) m [].

Definition raise {X} (e : exn) : M A I X :=
  fun m => mkOut (Raise e) m [].

Definition bind {X Y} (c : M A I X) (k : X -> M A I Y) : M A I Y :=
  fun m =>
    let o := c m in
    match res o with
    | Ret x =>
        let o' := k x (final o) in
        mkOut (res o') (final o') (emitted o ++ emitted o')
    | Raise e => mkOut (Raise e) (final o) (emitted o)
    end.

(** [try: body except ...: handler]: [handlers e] is the body of the first
    clause that matches [e], if there is one; otherwise the exception
    goes on to the caller. *)
Definition try_except {X} (body : M A I X)
    (handlers : exn -> option (M A I X)) : M A I X :=
  fun m =>
    let o := body m in
    match res o with
    | Ret x => o
    | Raise e =>
        match handlers e with
        | Some h =>
            let o' := h (final o) in
            mkOut (res o') (final o') (emitted o ++ emitted o')
        | None => o
        end
    end.

(** The same outcome, after the events [evs]. *)
Definition prepend {X} (evs : list event) (o : Out A I X) : Out A I X :=
  mkOut (res o) (final o) (evs ++ emitted o).

Definition lift {X} (r : result X) : M A I X :=
  fun m => mkOut r m [].

Definition emit (ev : event) : M A I unit :=
  fun m => mkOut (Ret tt) m [ev].

Definition emit_all (evs : list event) : M A I unit :=
  fun m => mkOut (Ret tt) m evs.

Definition print (msg : message) : M A I unit := emit (EvPrint msg).

Definition get_self : M A I (Brain A I) :=
  fun m => mkOut (Ret (self m)) m [].

Definition modify_self (f : Brain A I -> Brain A I) : M A I unit :=
  fun m => mkOut (Ret tt) (mkMachine (f (self m)) (files m) (pending m)) [].

(** [for x in xs: body x] *)
Fixpoint for_each {X} (xs : list X) (body : X -> M A I unit) : M A I unit :=
  match xs with
  | [] => ret tt
  | x :: rest => bind (body x) (fun _ => for_each rest body)
  end.
End Monad.

Notation "x <- c ;; k" := (bind c (fun x => k))
  (at level 100, c at next level, right associativity).
Notation "c ;;; k" := (bind c (fun _ => k))
  (at level 100, right associativity).

(** ** Field assignments *)

Section Setters.
Context {A I : Type}.
Implicit Type b : Brain A I.

Definition set_timestep (t : Z) b : Brain A I :=
  mkBrain (num_sensors b) (num_actions b) (backup_interval b) (name b)
    (log_dir b) (pickle_filename b) (affect b) (satisfaction b) (levels b)
    (actions b) t.

Definition set_affect (a : A) (s : val) b : Brain A I :=
  mkBrain (num_sensors b) (num_actions b) (backup_interval b) (name b)
    (log_dir b) (pickle_filename b) a s (levels b) (actions b) (timestep b).

Definition set_levels (ls : list (Level I)) b : Brain A I :=
  mkBrain (num_sensors b) (num_actions b) (backup_interval b) (name b)
    (log_dir b) (pickle_filename b) (affect b) (satisfaction b) ls
    (actions b) (timestep b).

Definition set_actions (a : list val) b : Brain A I :=
  mkBrain (num_sensors b) (num_actions b) (backup_interval b) (name b)
    (log_dir b) (pickle_filename b) (affect b) (satisfaction b) (levels b)
    a (timestep b).

End Setters.

(** ** Files *)

(** The exception a write ends with, if it does. *)
Definition outcome_exn (w : write_outcome) : option exn :=
  match w with
  | WriteOk => None
  | OpenRaises e => Some e
  | DumpRaises e _ => Some e
  end.

Section Files.
Context {A I : Type}.

(** The outcome the next write is going to meet, and what is left for
    the writes after it. *)
Definition next_outcome (p : list write_outcome) : write_outcome :=
  match p with
  | [] => WriteOk
  | w :: _ => w
  end.

(** [with open(path, 'wb') as f: pickle.dump(self, f)] *)
Definition write_pickle (path : string) : M A I unit :=
  fun m =>
    let rest := tail (pending m) in
    match next_outcome (pending m) with
    | WriteOk =>
        mkOut (Ret tt)
          (mkMachine (self m) (<[path := Pickled (self m)]> (files m)) rest)
          [EvWrite path]
    | OpenRaises e =>
        mkOut (Raise e) (mkMachine (self m) (files m) rest) [EvWrite path]
    | DumpRaises e r =>
        mkOut (Raise e)
          (mkMachine (self m) (<[path := Corrupt r]> (files m)) rest)
          [EvWrite path]
    end.

(** [with open(path, 'rb') as f: pickle.load(f)]: a missing file makes
    [open] raise [IOError]. *)
Definition load_pickle (path : string) : M A I (Brain A I) :=
  fun m =>
    match files m !! path with
    | None => mkOut (Raise IOError) m [EvRead path]
    | Some (Pickled b) => mkOut (Ret b) m [EvRead path]
    | Some (Corrupt e) => mkOut (Raise e) m [EvRead path]
    end.
End Files.

(** ** The methods of [Brain] *)

Section Methods.
Context {A I : Type} `{AffectTracker A} `{LevelEngine I}.

(** [xs[i]] *)
Definition getitem {X} (xs : list X) (i : nat) : result X :=
  match xs !! i with
  | Some x => Ret x
  | None => Raise IndexError
  end.

(** [Brain.__init__(num_sensors, num_actions, brain_name)].  [dir] is the
    value of [os.path.normpath(os.path.join(MODPATH, '..', 'log'))], which
    depends on where the module is installed; the creation of that
    directory is left out. *)
Definition Brain_init (n_sensors n_actions : Z) (brain_name dir : string)
    : result (Brain A I) :=
  let num_actions := n_actions + 1 in
  let num_elements := n_sensors + num_actions in
  let num_sequences := 3 * num_elements in
  let level_index := 0 in
  let level_0 := Level_new level_index num_elements num_sequences in
  if num_actions <? 0 then Raise ValueError
  else
    Ret (mkBrain n_sensors num_actions 100000 brain_name dir
           (os_path_join dir (brain_name +:+ ".pickle"))
           Affect_new 0%Q [level_0] (np_zeros num_actions) 0).

(** [Brain.backup()] *)
Definition backup : M A I bool :=
  emit EvBackup ;;;
  b <- get_self ;;
  try_except
    (write_pickle (pickle_filename b) ;;;
     write_pickle (bak (pickle_filename b)) ;;;
     ret true)
    (fun e =>
       if isinstance e IOError then
         Some (print (MsgFileError e) ;;; ret false)
       else if isinstance e PickleError then
         Some (print (MsgPicklingError e) ;;; ret false)
       else None).

(** [Brain.restore()] *)
Definition restore : M A I (pyobject A I) :=
  b <- get_self ;;
  try_except
    (loaded_brain <- load_pickle (pickle_filename b) ;;
     if (num_sensors loaded_brain =? num_sensors b)
        && (num_actions loaded_brain =? num_actions b)
     then
       print (MsgRestored (timestep loaded_brain) (pickle_filename b)) ;;;
       ret (PyBrain loaded_brain)
     else
       print (MsgMismatch (pickle_filename b)) ;;;
       ret (PyBrain b))
    (fun e =>
       if isinstance e IOError then
         Some (print (MsgCouldntOpen (pickle_filename b)) ;;;
               ret (PyBrain b))
       else if isinstance e PickleError then
         Some (print (MsgUnpickleError e) ;;; ret (PyBrain b))
       else None).

(** The loop [for level in self.levels: ...] of [sense_act_learn]: each
    level is stepped on the sequence activities of the one below.  The
    result is the updated levels, the activities that leave the top
    level, and one [EvStep] per call of [step]. *)
Fixpoint bottom_up (i : nat) (ls : list (Level I))
    (element_activities : list val) (reward sat : val)
    : list (Level I) * list val * list event :=
  match ls with
  | [] => ([], element_activities, [])
  | level :: rest =>
      let (level', sequence_activities) :=
        Level_step level element_activities reward sat in
      let '(rest', out, evs) :=
        bottom_up (S i) rest sequence_activities reward sat in
      (level' :: rest', out,
       EvStep i element_activities reward sat :: evs)
  end.

(** [self.levels[i].sequence_goals = self.levels[i + 1].element_goals] *)
Definition pass_goal_down (i : nat) : M A I unit :=
  b <- get_self ;;
  above <- lift (getitem (levels b) (i + 1)) ;;
  level <- lift (getitem (levels b) i) ;;
  modify_self
    (set_levels
       (<[i := set_sequence_goals (element_goals above) level]> (levels b))) ;;;
  emit (EvSetSequenceGoals i (element_goals above)).

(** [range(n - 1)[::-1]] for [n = len(self.levels)] *)
Definition top_down_indices (n : nat) : list nat := rev (seq 0 (n - 1)).

(** [Brain.sense_act_learn(sensors, reward)] *)
Definition sense_act_learn (sensors : list val) (reward : val)
    : M A I (list val) :=
  modify_self (fun b => set_timestep (timestep b + 1) b) ;;;
  b <- get_self ;;
  let (affect', sat) := Affect_update (affect b) reward in
  modify_self (set_affect affect' sat) ;;;
  b <- get_self ;;
  let element_activities := (sensors ++ actions b)%list in
  let '(ls, _, evs) :=
    bottom_up 0 (levels b) element_activities reward (satisfaction b) in
  modify_self (set_levels ls) ;;;
  emit_all evs ;;;
  b <- get_self ;;
  for_each (top_down_indices (length (levels b))) pass_goal_down ;;;
  b <- get_self ;;
  level_0 <- lift (getitem (levels b) 0) ;;
  modify_self (set_actions (element_goals level_0)) ;;;
  b <- get_self ;;
  print (MsgActions (actions b)) ;;;
  r <- lift (py_mod (timestep b) (backup_interval b)) ;;
  (if r =? 0 then (_ <- backup ;; ret tt) else ret tt) ;;;
  b <- get_self ;;
  ret (drop_last (actions b)).

(** A caller that makes one call of [sense_act_learn] per input and goes
    on whatever the call returns or raises. *)
Fixpoint run (inputs : list (list val * val)) (m : Machine A I)
    : Machine A I :=
  match inputs with
  | [] => m
  | (sensors, reward) :: rest =>
      run rest (final (sense_act_learn sensors reward m))
  end.
End Methods.

(** ** [random_actions] *)



(** ** A closed description of one call *)

(** The methods above are written the way the source is.  The definitions
    of this section say directly what the two loops and the action
    selection of [sense_act_learn] compute; they are related to the
    methods by the lemmas further down. *)
Section Description.
Context {A I : Type} `{AffectTracker A} `{LevelEngine I}.

Definition with_self (b : Brain A I) (m : Machine A I) : Machine A I :=
  mkMachine b (files m) (pending m).

(** The top-down loop restricted to the indices [k - 1], ..., [0]. *)
Fixpoint pass_down_from (k : nat) (ls : list (Level I)) : list (Level I) :=
  match k with
  | O => ls
  | S k' =>
      match ls !! (k' + 1)%nat, ls !! k' with
      | Some above, Some level =>
          pass_down_from k'
            (<[k' := set_sequence_goals (element_goals above) level]> ls)
      | _, _ => ls
      end
  end.

Fixpoint pass_down_events (k : nat) (ls : list (Level I)) : list event :=
  match k with
  | O => []
  | S k' =>
      match ls !! (k' + 1)%nat, ls !! k' with
      | Some above, Some level =>
          EvSetSequenceGoals k' (element_goals above)
          :: pass_down_events k'
               (<[k' := set_sequence_goals (element_goals above) level]> ls)
      | _, _ => []
      end
  end.

(** Every level but the top one receives the element goals of the level
    above it. *)
Definition goals_from_above (ls : list (Level I)) : list (Level I) :=
  imap (fun i level =>
          match ls !! S i with
          | Some above => set_sequence_goals (element_goals above) level
          | None => level
          end) ls.

(** The levels after the bottom-up loop of a call. *)
Definition stepped (b : Brain A I) (sensors : list val) (reward : val)
    : list (Level I) :=
  (bottom_up 0 (levels b) (sensors ++ actions b) reward
     (Affect_update (affect b) reward).2).1.1.

(** The events of the bottom-up loop of a call. *)
Definition step_events (b : Brain A I) (sensors : list val) (reward : val)
    : list event :=
  (bottom_up 0 (levels b) (sensors ++ actions b) reward
     (Affect_update (affect b) reward).2).2.

(** The action vector chosen by a call: the element goals of level 0. *)
Definition chosen_actions (b : Brain A I) (sensors : list val)
    (reward : val) : list val :=
  match stepped b sensors reward with
  | level_0 :: _ => element_goals level_0
  | [] => []
  end.

(** The object once the actions of a call are chosen. *)
Definition chosen (b : Brain A I) (sensors : list val) (reward : val)
    : Brain A I :=
  mkBrain (num_sensors b) (num_actions b) (backup_interval b) (name b)
    (log_dir b) (pickle_filename b)
    (Affect_update (affect b) reward).1
    (Affect_update (affect b) reward).2
    (goals_from_above (stepped b sensors reward))
    (chosen_actions b sensors reward)
    (timestep b + 1).

(** The events of a call up to and including the printed line. *)
Definition chosen_events (b : Brain A I) (sensors : list val)
    (reward : val) : list event :=
  step_events b sensors reward
  ++ pass_down_events (length (stepped b sensors reward) - 1)
       (stepped b sensors reward)
  ++ [EvPrint (MsgActions (chosen_actions b sensors reward))].

(** The end of [sense_act_learn]: the periodic backup and the return. *)
Definition checkpoint_and_return (evs : list event) (m : Machine A I)
    : Out A I (list val) :=
  match py_mod (timestep (self m)) (backup_interval (self m)) with
  | Raise e => mkOut (Raise e) m evs
  | Ret r =>
      if r =? 0 then
        let o := backup m in
        match res o with
        | Ret _ =>
            mkOut (Ret (drop_last (actions (self (final o))))) (final o)
              (evs ++ emitted o)
        | Raise e => mkOut (Raise e) (final o) (evs ++ emitted o)
        end
      else mkOut (Ret (drop_last (actions (self m)))) m evs
  end.
End Description.

(** ** Vocabulary of the properties *)

(** A fuzzy-binary entry. *)
Definition in_unit (v : val) : Prop := (0 <= v)%Q /\ (v <= 1)%Q.

(** A sensors vector as the docstring of [sense_act_learn] expects it. *)
Definition valid_sensors (n : Z) (sensors : list val) : Prop :=
  Z.of_nat (length sensors) = n /\ Forall in_unit sensors.

(** Modelled from the spec: [Level.step] of [becca/core/level.py], which is
    not among the sources.  Section 4.1 reads the element goals of level 0,
    once the level has been stepped, as "the full binary action vector
    (length num_actions, including the reserved slot)"; the input of the
    step is the vector of section 3, [n_sensors + n_actions] fuzzy-binary
    entries.  Section 3 also words [element_goals] as being as wide as the
    input of the level, which agrees with section 4.1 only for a brain
    without sensors; the contract below is the one of section 4.1, on which
    the sentences about the returned vector rest. *)
Definition goals_are_actions {I} `{LevelEngine I} (n_sensors n_actions : Z)
    : Prop :=
  forall (level : Level I) (element_activities : list val) (reward sat : val),
    Z.of_nat (length element_activities) = n_sensors + n_actions ->
    Forall in_unit element_activities ->
    Z.of_nat
      (length
         (element_goals (Level_step level element_activities reward sat).1))
      = n_actions
    /\ Forall binary
         (element_goals (Level_step level element_activities reward sat).1).

(** The exceptions named by the [except] clauses of [backup] and [restore]:
    an I/O failure is an [IOError], a failure to serialize or deserialize is
    a [pickle.PickleError]. *)
Definition io_or_serialization_failure (e : exn) : bool :=
  isinstance e IOError || isinstance e PickleError.

(** A write that succeeds or fails with one of these. *)
Definition benign (w : write_outcome) : Prop :=
  match outcome_exn w with
  | Some e => io_or_serialization_failure e = true
  | None => True
  end.

Definition is_step (ev : event) : bool :=
  match ev with EvStep _ _ _ _ => true | _ => false end.

Definition is_set_goals (ev : event) : bool :=
  match ev with EvSetSequenceGoals _ _ => true | _ => false end.

(** The vectors handed to [step] of level [i], in order. *)
Fixpoint step_inputs (i : nat) (evs : list event) : list (list val) :=
  match evs with
  | [] => []
  | EvStep j element_activities _ _ :: rest =>
      if Nat.eqb i j then element_activities :: step_inputs i rest
      else step_inputs i rest
  | _ :: rest => step_inputs i rest
  end.

(** The methods that change or may change the machine. *)
Inductive op : Type :=
  | Sense (sensors : list val) (reward : val)
  | Backup
  | Restore.

Section Operations.
Context {A I : Type} `{AffectTracker A} `{LevelEngine I}.

Definition exec (o : op) (m : Machine A I) : Machine A I :=
  match o with
  | Sense sensors reward => final (sense_act_learn sensors reward m)
  | Backup => final (backup m)
  | Restore => final (restore m)
  end.

Definition execs (os : list op) (m : Machine A I) : Machine A I :=
  fold_left (fun m o => exec o m) os m.

(** What holds of the machine between two calls when the level keeps its
    side of the contract: a brain with a level, the configured sizes, a
    usable interval, a binary action vector of the configured length, and
    only writes that succeed or fail with a caught exception ahead. *)
Definition well_formed (n_sensors n_actions : Z) (m : Machine A I) : Prop :=
  levels (self m) <> []
  /\ num_sensors (self m) = n_sensors
  /\ num_actions (self m) = n_actions
  /\ backup_interval (self m) <> 0
  /\ Z.of_nat (length (actions (self m))) = n_actions
  /\ Forall binary (actions (self m))
  /\ Forall benign (pending m).
End Operations.

(** ** Sample collaborators *)

(** A tracker that remembers the sum of the rewards and reports the last
    one as the satisfaction. *)
#[local] Instance sum_affect : AffectTracker Q := {|
  Affect_new := 0%Q;
  Affect_update a reward := (Qplus a reward, reward)
|}.

(** A level for a brain with three action slots: it counts its steps, asks
    for the first action at every step and hands its input on. *)
#[local] Instance first_action_level : LevelEngine nat := {|
  Level_new _ num_elements num_sequences :=
    mkLevel (np_zeros num_elements) (np_zeros num_sequences) O;
  Level_step level element_activities _ _ :=
    (mkLevel [1%Q; 0%Q; 0%Q] (sequence_goals level) (S (internals level)),
     element_activities)
|}.

(** ** Sample objects *)

(** The brain that [Brain(n_sensors, n_actions)] builds with the sample
    collaborators when the module lives in [becca/core]. *)
Definition sample_brain (n_sensors n_actions : Z) : Brain Q nat :=
  mkBrain n_sensors (n_actions + 1) 100000 "test_brain" "becca/log"
    "becca/log/test_brain.pickle" 0%Q 0%Q
    [@Level_new nat first_action_level 0 (n_sensors + (n_actions + 1))
       (3 * (n_sensors + (n_actions + 1)))]
    (np_zeros (n_actions + 1)) 0.

(** That brain on an empty disk, no write failure ahead. *)
Definition sample_machine (n_sensors n_actions : Z) : Machine Q nat :=
  mkMachine (sample_brain n_sensors n_actions) ∅ [].

(** Two calls on two sensors. *)
Definition sample_inputs : list (list val * val) :=
  [([1%Q; 0%Q], (1 # 2)%Q); ([0%Q; 1%Q], 0%Q)].

(** A brain for five sensors and three actions that finds the checkpoint of
    a brain for four sensors and three actions. *)
Definition mismatched_machine : Machine Q nat :=
  mkMachine (sample_brain 5 3)
    {[ "becca/log/test_brain.pickle" := Pickled (sample_brain 4 3) ]} [].

(** A brain of two levels, as a taller hierarchy would have it. *)
Definition two_level_machine : Machine Q nat :=
  mkMachine
    (set_levels
       [mkLevel [0%Q; 0%Q; 0%Q] [] 0%nat; mkLevel [0%Q; 1%Q] [] 0%nat]
       (sample_brain 2 2))
    ∅ [].

(** A brain one call away from its first periodic backup. *)
Definition late_machine : Machine Q nat :=
  mkMachine (set_timestep 99999 (sample_brain 2 2)) ∅ [].

(** A brain that has lived seven steps, about to be saved on an empty
    disk. *)
Definition saved_machine : Machine Q nat :=
  mkMachine (set_timestep 7 (sample_brain 2 2)) ∅ [].


(** A brain whose next write is refused by the operating system. *)
Definition failing_disk_machine : Machine Q nat :=
  mkMachine (sample_brain 2 2) ∅ [OpenRaises IOError].

(** A brain whose save the user interrupts with ^C when the second file
    is being opened. *)
Definition interrupted_second_write_machine : Machine Q nat :=
  mkMachine (sample_brain 2 2) ∅ [WriteOk; OpenRaises KeyboardInterrupt].



(** A brain whose list of levels was emptied. *)
Definition no_level_machine : Machine Q nat :=
  mkMachine (set_levels [] (sample_brain 2 2)) ∅ [].

(** [brain.backup_interval = n] *)
Definition set_backup_interval {A I} (n : Z) (b : Brain A I) : Brain A I :=
  mkBrain (num_sensors b) (num_actions b) n (name b) (log_dir b)
    (pickle_filename b) (affect b) (satisfaction b) (levels b) (actions b)
    (timestep b).

(** A brain whose backup interval was set to zero. *)
Definition zero_interval_machine : Machine Q nat :=
  mkMachine (set_backup_interval 0 (sample_brain 2 2)) ∅ [].

(** A brain one call away from its first periodic backup, which the user
    is going to interrupt. *)
Definition interrupted_late_machine : Machine Q nat :=
  mkMachine (set_timestep 99999 (sample_brain 2 2)) ∅
    [OpenRaises KeyboardInterrupt].

(** A brain whose second write is going to fail half-way, over a backup
    copy from an earlier cycle. *)
Definition half_failing_machine : Machine Q nat :=
  mkMachine (set_timestep 7 (sample_brain 2 2))
    {[ "becca/log/test_brain.pickle.bak" := Pickled (sample_brain 2 2) ]}
    [WriteOk; DumpRaises IOError EOFError].

(** A brain whose first write is going to be interrupted half-way. *)
Definition interrupted_machine : Machine Q nat :=
  mkMachine (set_timestep 7 (sample_brain 2 2)) ∅
    [DumpRaises KeyboardInterrupt EOFError].

(** A new brain that finds a truncated primary file. *)
Definition truncated_machine : Machine Q nat :=
  mkMachine (sample_brain 2 2)
    {[ "becca/log/test_brain.pickle" := Corrupt EOFError ]} [].

(** A long quiet life: 99999 calls with the same input. *)
Definition quiet_inputs : list (list val * val) :=
  repeat ([1%Q; 0%Q], 0%Q) (Z.to_nat 99999).

(** * Lemmas on the monad and on one call *)

Section Call.
Context {A I : Type} `{AffectTracker A} `{LevelEngine I}.

Lemma set_levels_same (b : Brain A I) : set_levels (levels b) b = b.
Proof. by destruct b. Qed.

Lemma pass_goal_down_in_range (m : Machine A I) i level above :
  levels (self m) !! i = Some level ->
  levels (self m) !! (i + 1)%nat = Some above ->
  pass_goal_down i m =
    mkOut (Ret tt)
      (with_self
         (set_levels
            (<[i := set_sequence_goals (element_goals above) level]>
               (levels (self m))) (self m)) m)
      [EvSetSequenceGoals i (element_goals above)].
Proof.
  intros Hi Hs. unfold pass_goal_down, bind, get_self, lift, getitem.
  cbn [res final emitted]. rewrite Hs. cbn [res final emitted]. rewrite Hi. reflexivity.
Qed.

Lemma top_down_loop k : forall (m : Machine A I),
  (k < length (levels (self m)))%nat ->
  for_each (rev (seq 0 k)) pass_goal_down m =
    mkOut (Ret tt)
      (with_self (set_levels (pass_down_from k (levels (self m))) (self m)) m)
      (pass_down_events k (levels (self m))).
Proof.
  induction k as [|k IH]; intros m Hk.
  - cbn. unfold ret, with_self. rewrite set_levels_same. by destruct m.
  - rewrite seq_S, rev_app_distr. cbn [rev app for_each plus].
    destruct (lookup_lt_is_Some_2 (levels (self m)) k) as [level Hl]; [lia|].
    destruct (lookup_lt_is_Some_2 (levels (self m)) (k + 1)) as [above Ha]; [lia|].
    unfold bind at 1. rewrite (pass_goal_down_in_range m k level above Hl Ha).
    cbn [res final emitted].
    rewrite IH by (cbn; rewrite length_insert; lia).
    cbn. rewrite Ha, Hl. reflexivity.
Qed.

Lemma bottom_up_length ls : forall i ea r s,
  length (bottom_up i ls ea r s).1.1 = length ls.
Proof.
  induction ls as [|l ls IH]; intros i ea r s; cbn; [done|].
  destruct (Level_step l ea r s) as [l' sa].
  specialize (IH (S i) sa r s).
  destruct (bottom_up (S i) ls sa r s) as [[rest' out] evs]. cbn in *. lia.
Qed.

Lemma pass_down_from_lookup k : forall (ls : list (Level I)) i,
  (k < length ls)%nat ->
  pass_down_from k ls !! i =
    if decide (i < k)%nat then
      match ls !! S i, ls !! i with
      | Some above, Some level =>
          Some (set_sequence_goals (element_goals above) level)
      | _, _ => None
      end
    else ls !! i.
Proof.
  induction k as [|k IH]; intros ls i Hk.
  - cbn. case_decide; [lia|done].
  - cbn [pass_down_from].
    destruct (lookup_lt_is_Some_2 ls k) as [level Hl]; [lia|].
    destruct (lookup_lt_is_Some_2 ls (k + 1)) as [above Ha]; [lia|].
    rewrite Ha, Hl. rewrite IH by (rewrite length_insert; lia).
    replace (k + 1)%nat with (S k) in Ha by lia.
    destruct (decide (i < k)%nat) as [Hik|Hik].
    + rewrite decide_True by lia.
      rewrite (list_lookup_insert_ne _ k i) by lia.
      destruct (decide (S i = k)) as [->|Hne].
      * rewrite list_lookup_insert_eq by lia. rewrite Hl. 
        destruct (ls !! i); reflexivity.
      * rewrite list_lookup_insert_ne by lia. reflexivity.
    + destruct (decide (i = k)) as [->|Hne].
      * rewrite decide_True by lia. rewrite list_lookup_insert_eq by lia.
        rewrite Ha, Hl. reflexivity.
      * rewrite decide_False by lia. rewrite list_lookup_insert_ne by lia.
        reflexivity.
Qed.

Lemma pass_down_from_top (ls : list (Level I)) :
  pass_down_from (length ls - 1) ls = goals_from_above ls.
Proof.
  destruct ls as [|l0 rest]; [reflexivity|].
  apply list_eq. intros i. unfold goals_from_above.
  rewrite list_lookup_imap, pass_down_from_lookup by (cbn; lia).
  cbn [length]. replace (S (length rest) - 1)%nat with (length rest) by lia.
  case_decide as Hi.
  - destruct (lookup_lt_is_Some_2 (l0 :: rest) (S i)) as [above Ha]; [cbn; lia|].
    destruct (lookup_lt_is_Some_2 (l0 :: rest) i) as [level Hl]; [cbn; lia|].
    rewrite Ha, Hl. reflexivity.
  - destruct ((l0 :: rest) !! i) as [level|] eqn:Hl; [|reflexivity].
    apply lookup_lt_Some in Hl. cbn in Hl.
    rewrite (lookup_ge_None_2 (l0 :: rest) (S i)) by (cbn; lia). reflexivity.
Qed.


Lemma prepend_nil {X} (o : Out A I X) : prepend [] o = o.
Proof. by destruct o. Qed.

Lemma prepend_prepend {X} evs evs' (o : Out A I X) :
  prepend evs (prepend evs' o) = prepend (evs ++ evs') o.
Proof. unfold prepend. cbn. by rewrite app_assoc. Qed.

Lemma bind_returns {X Y} (c : M A I X) (k : X -> M A I Y) m x m' evs :
  c m = mkOut (Ret x) m' evs -> bind c k m = prepend evs (k x m').
Proof. intros E. unfold bind. rewrite E. reflexivity. Qed.

Lemma bind_raises {X Y} (c : M A I X) (k : X -> M A I Y) m e m' evs :
  c m = mkOut (Raise e) m' evs -> bind c k m = mkOut (Raise e) m' evs.
Proof. intros E. unfold bind. rewrite E. reflexivity. Qed.

Lemma bind_modify_self {Y} f (k : unit -> M A I Y) m :
  bind (modify_self f) k m = k tt (with_self (f (self m)) m).
Proof. erewrite bind_returns by reflexivity. apply prepend_nil. Qed.

Lemma bind_get_self {Y} (k : Brain A I -> M A I Y) m :
  bind get_self k m = k (self m) m.
Proof. erewrite bind_returns by reflexivity. apply prepend_nil. Qed.

Lemma bind_emit_all {Y} evs (k : unit -> M A I Y) m :
  bind (emit_all evs) k m = prepend evs (k tt m).
Proof. by erewrite bind_returns. Qed.

Lemma bind_print {Y} msg (k : unit -> M A I Y) m :
  bind (print msg) k m = prepend [EvPrint msg] (k tt m).
Proof. by erewrite bind_returns. Qed.

Lemma bind_lift {X Y} (r : result X) (k : X -> M A I Y) m :
  bind (lift r) k m =
    match r with Ret x => k x m | Raise e => mkOut (Raise e) m [] end.
Proof.
  destruct r.
  - erewrite bind_returns by reflexivity. apply prepend_nil.
  - by erewrite bind_raises.
Qed.

Lemma goals_from_above_head (l0 : Level I) rest :
  exists l0' rest', goals_from_above (l0 :: rest) = l0' :: rest'
    /\ element_goals l0' = element_goals l0.
Proof.
  unfold goals_from_above. cbn. eexists _, _. split; [reflexivity|].
  destruct rest; reflexivity.
Qed.

Ltac fields :=
  cbn [with_self self files pending set_timestep set_affect set_levels
       set_actions levels actions satisfaction affect timestep
       backup_interval num_sensors num_actions name log_dir
       pickle_filename fst snd] in *.

Lemma sense_act_learn_unfold sensors reward (m : Machine A I) :
  levels (self m) <> [] ->
  sense_act_learn sensors reward m =
    checkpoint_and_return (chosen_events (self m) sensors reward)
      (with_self (chosen (self m) sensors reward) m).
Proof.
  intros Hne. unfold sense_act_learn.
  rewrite bind_modify_self, bind_get_self.
  unfold chosen_events, chosen, chosen_actions, stepped, step_events.
  fields.
  destruct (Affect_update (affect (self m)) reward) as [affect' sat] eqn:Ea.
  cbv beta iota. 
  rewrite bind_modify_self, bind_get_self.
  fields.
  pose proof (bottom_up_length (levels (self m)) 0
                (sensors ++ actions (self m)) reward sat) as Hlen.
  destruct (bottom_up 0 (levels (self m)) (sensors ++ actions (self m)) reward sat)
    as [[ls out] evs] eqn:Eb.
  fields. cbv beta iota.
  rewrite bind_modify_self, bind_emit_all, bind_get_self.
  fields.
  unfold top_down_indices.
  erewrite bind_returns; cycle 1.
  { apply top_down_loop. cbn. destruct (levels (self m)); [done|]. cbn in Hlen. lia. }
  rewrite bind_get_self.
  fields.
  rewrite pass_down_from_top.
  destruct ls as [|l0 rest]; [destruct (levels (self m)); [done|discriminate]|].
  destruct (goals_from_above_head l0 rest) as (l0' & rest' & Eg & Eeg).
  rewrite Eg, bind_lift. cbn [getitem lookup list_lookup].
  rewrite bind_modify_self, bind_get_self. fields.
  rewrite bind_print, bind_lift. fields.
  rewrite !prepend_prepend, Eeg.
  unfold checkpoint_and_return. fields.
  unfold prepend, with_self, set_actions, set_levels, set_affect,
    set_timestep.
  cbn [self files pending levels actions satisfaction affect timestep
       backup_interval num_sensors num_actions name log_dir
       pickle_filename].
  rewrite <- !app_assoc.
  destruct (py_mod (timestep (self m) + 1) (backup_interval (self m))) as [r|e];
    [|cbn; by rewrite ?app_nil_r].
  destruct (r =? 0).
  - unfold bind. cbn [res final emitted].
    destruct (backup _) as [[ok|e] m' evs']; cbn [res final emitted];
      by rewrite ?app_nil_r, <- ?app_assoc.
  - unfold bind. cbn. by rewrite <- ?app_assoc.
Qed.
End Call.

(** * Lemmas on [backup] and on the counter *)

Section Backup.
Context {A I : Type} `{AffectTracker A} `{LevelEngine I}.

Lemma backup_self (m : Machine A I) : self (final (backup m)) = self m.
Proof.
  unfold backup, bind, try_except, write_pickle. cbn.
  destruct (next_outcome (pending m)) as [|e|e r]; cbn.
  - destruct (next_outcome (tail (pending m))) as [|e|e r]; cbn; [done|..];
      destruct (isinstance e IOError); cbn; try done;
      destruct (isinstance e PickleError); cbn; done.
  - destruct (isinstance e IOError); cbn; try done;
      destruct (isinstance e PickleError); cbn; done.
  - destruct (isinstance e IOError); cbn; try done;
      destruct (isinstance e PickleError); cbn; done.
Qed.

Lemma backup_both_written (m : Machine A I) :
  next_outcome (pending m) = WriteOk ->
  next_outcome (tail (pending m)) = WriteOk ->
  backup m =
    mkOut (Ret true)
      (mkMachine (self m)
         (<[bak (pickle_filename (self m)) := Pickled (self m)]>
            (<[pickle_filename (self m) := Pickled (self m)]> (files m)))
         (tail (tail (pending m))))
      [EvBackup; EvWrite (pickle_filename (self m));
       EvWrite (bak (pickle_filename (self m)))].
Proof.
  intros E1 E2. unfold backup, bind, try_except, write_pickle. cbn.
  rewrite E1. cbn. rewrite E2. reflexivity.
Qed.

Lemma backup_result (m : Machine A I) :
  res (backup m) =
    match outcome_exn (next_outcome (pending m)) with
    | Some e => if io_or_serialization_failure e then Ret false else Raise e
    | None =>
        match outcome_exn (next_outcome (tail (pending m))) with
        | Some e => if io_or_serialization_failure e then Ret false else Raise e
        | None => Ret true
        end
    end.
Proof.
  unfold backup, bind, try_except, write_pickle, io_or_serialization_failure. cbn.
  destruct (next_outcome (pending m)) as [|e|e r]; cbn.
  - destruct (next_outcome (tail (pending m))) as [|e|e r]; cbn; [done|..];
      destruct (isinstance e IOError); cbn; try done;
      destruct (isinstance e PickleError); cbn; done.
  - destruct (isinstance e IOError); cbn; try done;
      destruct (isinstance e PickleError); cbn; done.
  - destruct (isinstance e IOError); cbn; try done;
      destruct (isinstance e PickleError); cbn; done.
Qed.

Lemma backup_emits_backup_first (m : Machine A I) :
  exists rest, emitted (backup m) = EvBackup :: rest.
Proof.
  unfold backup, bind. cbn. eauto.
Qed.

Lemma backup_pending (m : Machine A I) :
  exists n, pending (final (backup m)) = drop n (pending m).
Proof.
  unfold backup, bind, try_except, write_pickle. cbn.
  destruct (next_outcome (pending m)) as [|e|e r]; cbn.
  - destruct (next_outcome (tail (pending m))) as [|e|e r]; cbn;
      [exists 2%nat; by destruct (pending m) as [|? [|? ?]]|..];
      destruct (isinstance e IOError); cbn;
      try destruct (isinstance e PickleError); cbn;
      exists 2%nat; by destruct (pending m) as [|? [|? ?]].
  - destruct (isinstance e IOError); cbn;
      try destruct (isinstance e PickleError); cbn;
      exists 1%nat; by destruct (pending m).
  - destruct (isinstance e IOError); cbn;
      try destruct (isinstance e PickleError); cbn;
      exists 1%nat; by destruct (pending m).
Qed.

Lemma sense_act_learn_no_level sensors reward (m : Machine A I) :
  levels (self m) = [] ->
  sense_act_learn sensors reward m =
    mkOut (Raise IndexError)
      (with_self
         (set_levels []
            (set_affect (Affect_update (affect (self m)) reward).1
               (Affect_update (affect (self m)) reward).2
               (set_timestep (timestep (self m) + 1) (self m)))) m)
      [].
Proof.
  intros E. unfold sense_act_learn. cbn.
  destruct (Affect_update _ _) as [a' sat]. cbn. rewrite E. reflexivity.
Qed.

Lemma sense_act_learn_timestep sensors reward (m : Machine A I) :
  timestep (self (final (sense_act_learn sensors reward m))) =
  timestep (self m) + 1.
Proof.
  destruct (levels (self m)) as [|l0 rest] eqn:E.
  - by rewrite sense_act_learn_no_level.
  - rewrite sense_act_learn_unfold by (rewrite E; done).
    unfold checkpoint_and_return. cbn [with_self self chosen timestep backup_interval].
    destruct (py_mod _ _) as [r|e]; [|done].
    destruct (r =? 0); [|done].
    destruct (res (backup _)); cbn [final]; by rewrite backup_self.
Qed.
End Backup.

(** * The counter, the backup period and the height of the hierarchy *)

Section Lifetime.
Context {A I : Type} `{AffectTracker A} `{LevelEngine I}.

Lemma Brain_init_inv ns na nm dir (b : Brain A I) :
  Brain_init ns na nm dir = Ret b ->
  0 <= na + 1 /\
  b = mkBrain ns (na + 1) 100000 nm dir (os_path_join dir (nm +:+ ".pickle"))
        Affect_new 0%Q
        [Level_new 0 (ns + (na + 1)) (3 * (ns + (na + 1)))]
        (np_zeros (na + 1)) 0.
Proof.
  unfold Brain_init. destruct (na + 1 <? 0) eqn:E; [discriminate|].
  intros [= <-]. split; [lia|reflexivity].
Qed.

Lemma run_timestep inputs : forall (m : Machine A I),
  timestep (self (run inputs m)) = timestep (self m) + Z.of_nat (length inputs).
Proof.
  induction inputs as [|[sensors reward] rest IH]; intros m; cbn [run length].
  - lia.
  - rewrite IH, sense_act_learn_timestep. lia.
Qed.

(** Claim C2: a freshly constructed brain has [timestep = 0]; every call of
    [sense_act_learn], whatever it returns or raises, adds exactly 1; so
    after [n] calls the counter is [n]. *)
Theorem timestep_counts_calls ns na nm dir (b : Brain A I) fs pend inputs :
  Brain_init ns na nm dir = Ret b ->
  timestep b = 0
  /\ (forall sensors reward (m : Machine A I),
        timestep (self (final (sense_act_learn sensors reward m)))
        = timestep (self m) + 1)
  /\ timestep (self (run inputs (mkMachine b fs pend)))
     = Z.of_nat (length inputs).
Proof.
  intros Hb. apply Brain_init_inv in Hb as [_ ->].
  split; [reflexivity|]. split; [apply sense_act_learn_timestep|].
  rewrite run_timestep. cbn. lia.
Qed.

Lemma float_of_int_exact n : - 2 ^ 53 < n < 2 ^ 53 -> float_of_int n = n.
Proof.
  intros Hn. unfold float_of_int.
  destruct (Z.eq_dec n 0) as [->|Hz]; [reflexivity|].
  assert (Z.log2 (Z.abs n) < 53) by (apply Z.log2_lt_pow2; lia).
  destruct (Z.leb_spec (Z.log2 (Z.abs n) - 52) 0); [reflexivity|lia].
Qed.

Lemma bottom_up_events_steps ls : forall i ea r s,
  Forall (fun ev => is_step ev = true) (bottom_up i ls ea r s).2.
Proof.
  induction ls as [|l ls IH]; intros i ea r s; cbn; [constructor|].
  destruct (Level_step l ea r s) as [l' sa].
  specialize (IH (S i) sa r s).
  destruct (bottom_up (S i) ls sa r s) as [[rest' out] evs]. cbn in *.
  by constructor.
Qed.

Lemma pass_down_events_sets k : forall (ls : list (Level I)),
  Forall (fun ev => is_set_goals ev = true) (pass_down_events k ls).
Proof.
  induction k as [|k IH]; intros ls; cbn; [constructor|].
  destruct (ls !! (k + 1)%nat); [|constructor].
  destruct (ls !! k); [|constructor].
  constructor; [reflexivity|apply IH].
Qed.

Lemma chosen_events_no_backup (b : Brain A I) sensors reward :
  EvBackup ∉ chosen_events b sensors reward.
Proof.
  unfold chosen_events, step_events. rewrite !elem_of_app.
  intros [Hin|[Hin|Hin]].
  - eapply Forall_forall in Hin; [|apply bottom_up_events_steps]. discriminate.
  - eapply Forall_forall in Hin; [|apply pass_down_events_sets]. discriminate.
  - apply list_elem_of_singleton in Hin. discriminate.
Qed.

(** Claim C9: a call of [sense_act_learn] on a brain that has a level, whose
    interval is not zero and whose new timestep converts to a float
    exactly, calls [backup] if and only if the timestep it reaches is a
    multiple of [backup_interval]. *)
Theorem backup_exactly_on_multiples sensors reward (m : Machine A I) :
  levels (self m) <> [] ->
  backup_interval (self m) <> 0 ->
  - 2 ^ 53 < timestep (self m) + 1 < 2 ^ 53 ->
  EvBackup ∈ emitted (sense_act_learn sensors reward m)
  <-> (backup_interval (self m) | timestep (self m) + 1).
Proof.
  intros Hne Hi Ht. rewrite sense_act_learn_unfold by done.
  unfold checkpoint_and_return, py_mod.
  cbn [with_self self chosen timestep backup_interval].
  destruct (Z.eqb_spec (backup_interval (self m)) 0) as [|_]; [done|].
  rewrite float_of_int_exact by done.
  rewrite <- Z.mod_divide by done.
  destruct (Z.eqb_spec ((timestep (self m) + 1) `mod` backup_interval (self m)) 0)
    as [E|E].
  - split; [done|intros _].
    match goal with |- context [backup ?m'] =>
      destruct (backup_emits_backup_first m') as [rest Hrest];
      destruct (res (backup m')) end;
      cbn [emitted]; rewrite Hrest, elem_of_app; right; left.
  - cbn [emitted]. split; [|done].
    intros Hin. by apply chosen_events_no_backup in Hin.
Qed.

Lemma restore_final (m : Machine A I) : final (restore m) = m.
Proof.
  unfold restore, bind, try_except, load_pickle. cbn.
  destruct (files m !! pickle_filename (self m)) as [[lb|e]|]; cbn.
  - destruct (_ && _); reflexivity.
  - destruct (isinstance e IOError); cbn; [reflexivity|].
    destruct (isinstance e PickleError); reflexivity.
  - reflexivity.
Qed.

Lemma goals_from_above_length (ls : list (Level I)) :
  length (goals_from_above ls) = length ls.
Proof. unfold goals_from_above. by rewrite length_imap. Qed.

Lemma sense_act_learn_levels_length sensors reward (m : Machine A I) :
  length (levels (self (final (sense_act_learn sensors reward m))))
  = length (levels (self m)).
Proof.
  destruct (levels (self m)) as [|l0 rest] eqn:E.
  - by rewrite sense_act_learn_no_level.
  - rewrite sense_act_learn_unfold by (rewrite E; done).
    assert (length (levels (chosen (self m) sensors reward))
            = length (l0 :: rest)) as Hlen.
    { cbn [chosen levels]. rewrite goals_from_above_length. unfold stepped.
      by rewrite bottom_up_length, E. }
    unfold checkpoint_and_return. cbn [with_self self].
    destruct (py_mod _ _) as [r|e]; [|done].
    destruct (r =? 0); [|done].
    destruct (res (backup _)); cbn [final]; by rewrite backup_self.
Qed.

Lemma exec_levels_length o (m : Machine A I) :
  length (levels (self (exec o m))) = length (levels (self m)).
Proof.
  destruct o as [sensors reward| |]; cbn [exec].
  - apply sense_act_learn_levels_length.
  - by rewrite backup_self.
  - by rewrite restore_final.
Qed.

Lemma execs_levels_length os : forall (m : Machine A I),
  length (levels (self (execs os m))) = length (levels (self m)).
Proof.
  unfold execs. induction os as [|o os IH]; intros m; cbn; [done|].
  by rewrite IH, exec_levels_length.
Qed.

(** Claim C10: the constructor makes exactly one level, with
    [num_elements = num_sensors + num_actions] and
    [num_sequences = 3 * num_elements]; [sense_act_learn], [backup] and
    [restore] keep [self.levels] at length 1, so the top-down loop has no
    index to visit. *)
Theorem brain_has_one_level ns na nm dir (b : Brain A I) :
  Brain_init ns na nm dir = Ret b ->
  levels b = [Level_new 0 (ns + num_actions b) (3 * (ns + num_actions b))]
  /\ num_actions b = na + 1
  /\ forall os fs pend,
       length (levels (self (execs os (mkMachine b fs pend)))) = 1%nat
       /\ top_down_indices
            (length (levels (self (execs os (mkMachine b fs pend))))) = [].
Proof.
  intros Hb. apply Brain_init_inv in Hb as [_ ->]. cbn [levels num_actions].
  split; [reflexivity|]. split; [reflexivity|]. intros os fs pend.
  rewrite execs_levels_length. cbn. done.
Qed.
End Lifetime.

(** * The two passes of one call *)

Section Passes.
Context {A I : Type} `{AffectTracker A} `{LevelEngine I}.

Lemma sense_act_learn_self sensors reward (m : Machine A I) :
  levels (self m) <> [] ->
  self (final (sense_act_learn sensors reward m)) = chosen (self m) sensors reward.
Proof.
  intros Hne. rewrite sense_act_learn_unfold by done.
  unfold checkpoint_and_return. cbn [with_self self].
  destruct (py_mod _ _) as [r|e]; [|done].
  destruct (r =? 0); [|done].
  destruct (res (backup _)); cbn [final]; by rewrite backup_self.
Qed.

Lemma sense_act_learn_pending sensors reward (m : Machine A I) :
  exists n, pending (final (sense_act_learn sensors reward m)) = drop n (pending m).
Proof.
  destruct (levels (self m)) as [|l0 rest] eqn:E.
  - rewrite sense_act_learn_no_level by done. by exists 0%nat.
  - rewrite sense_act_learn_unfold by (rewrite E; done).
    unfold checkpoint_and_return. cbn [with_self self].
    destruct (py_mod _ _) as [r|e]; [|by exists 0%nat].
    destruct (r =? 0); [|by exists 0%nat].
    match goal with |- context [backup ?m'] =>
      destruct (backup_pending m') as [n Hn]; destruct (res (backup m')) end;
      cbn [final]; rewrite Hn; by exists n.
Qed.

Lemma backup_events_plain (m : Machine A I) :
  Forall (fun ev => is_step ev = false /\ is_set_goals ev = false)
    (emitted (backup m)).
Proof.
  unfold backup, bind, try_except, write_pickle. cbn.
  destruct (next_outcome (pending m)) as [|e|e r]; cbn;
    [destruct (next_outcome (tail (pending m))) as [|e|e r]; cbn|..];
    try (destruct (isinstance e IOError); cbn;
         [|destruct (isinstance e PickleError); cbn]);
    repeat constructor.
Qed.

(** The events of a call: those up to the printed line, then those of the
    backup if there is one. *)
Lemma sense_act_learn_events sensors reward (m : Machine A I) :
  levels (self m) <> [] ->
  exists tail_events,
    emitted (sense_act_learn sensors reward m)
    = (chosen_events (self m) sensors reward ++ tail_events)%list
    /\ Forall (fun ev => is_step ev = false /\ is_set_goals ev = false)
         tail_events.
Proof.
  intros Hne. rewrite sense_act_learn_unfold by done.
  unfold checkpoint_and_return. cbn [with_self self].
  destruct (py_mod _ _) as [r|e];
    [|exists []; by rewrite app_nil_r].
  destruct (r =? 0); [|exists []; by rewrite app_nil_r].
  match goal with |- context [backup ?m'] =>
    pose proof (backup_events_plain m') as Hp; destruct (res (backup m')) end;
    eexists; split; [reflexivity|done|reflexivity|done].
Qed.

Lemma bottom_up_events_length ls : forall i ea r s,
  length (bottom_up i ls ea r s).2 = length ls.
Proof.
  induction ls as [|l ls IH]; intros i ea r s; cbn; [done|].
  destruct (Level_step l ea r s) as [l' sa].
  specialize (IH (S i) sa r s).
  destruct (bottom_up (S i) ls sa r s) as [[rest' out] evs]. cbn in *. lia.
Qed.

Lemma pass_down_events_length k : forall (ls : list (Level I)),
  (k < length ls)%nat -> length (pass_down_events k ls) = k.
Proof.
  induction k as [|k IH]; intros ls Hk; cbn; [done|].
  destruct (lookup_lt_is_Some_2 ls k) as [level Hl]; [lia|].
  destruct (lookup_lt_is_Some_2 ls (k + 1)) as [above Ha]; [lia|].
  rewrite Ha, Hl. cbn. rewrite IH; [done|]. rewrite length_insert. lia.
Qed.

Lemma stepped_length (b : Brain A I) sensors reward :
  length (stepped b sensors reward) = length (levels b).
Proof. unfold stepped. apply bottom_up_length. Qed.

Lemma goals_from_above_lookup (ls : list (Level I)) i :
  goals_from_above ls !! i =
    (fun level =>
       match ls !! S i with
       | Some above => set_sequence_goals (element_goals above) level
       | None => level
       end) <$> ls !! i.
Proof. unfold goals_from_above. by rewrite list_lookup_imap. Qed.

(** Claim C4: after a call of [sense_act_learn] that returns, every level
    [i] below the top one holds, as its [sequence_goals], the
    [element_goals] that level [i + 1] had when the bottom-up loop ended,
    and level [i + 1] still has them; the top level is as the bottom-up
    loop left it; and in the events of the call the steps of all the levels
    come first, the assignments of the top-down loop after them. *)
Theorem goals_pass_down_after_steps sensors reward (m : Machine A I) acts :
  res (sense_act_learn sensors reward m) = Ret acts ->
  let up := stepped (self m) sensors reward in
  let after := levels (self (final (sense_act_learn sensors reward m))) in
  let height := length (levels (self m)) in
  length up = height /\ length after = height
  /\ (forall i above,
        up !! S i = Some above ->
        exists level,
          after !! i = Some level
          /\ sequence_goals level = element_goals above
          /\ element_goals <$> after !! S i = Some (element_goals above))
  /\ (forall top,
        up !! (height - 1)%nat = Some top ->
        after !! (height - 1)%nat = Some top)
  /\ exists steps sets rest,
       emitted (sense_act_learn sensors reward m) = (steps ++ sets ++ rest)%list
       /\ length steps = height
       /\ Forall (fun ev => is_step ev = true) steps
       /\ length sets = (height - 1)%nat
       /\ Forall (fun ev => is_set_goals ev = true) sets
       /\ Forall (fun ev => is_step ev = false /\ is_set_goals ev = false) rest.
Proof.
  intros Hret up after height.
  assert (levels (self m) <> []) as Hne.
  { intros E. rewrite sense_act_learn_no_level in Hret by done. discriminate. }
  assert (length up = height) as Hup by apply stepped_length.
  assert (after = goals_from_above up) as Hafter.
  { unfold after. by rewrite sense_act_learn_self. }
  split; [done|]. split; [by rewrite Hafter, goals_from_above_length|].
  split; [|split].
  - intros i above Ha. rewrite Hafter, !goals_from_above_lookup.
    destruct (lookup_lt_is_Some_2 up i) as [level Hl];
      [apply lookup_lt_Some in Ha; lia|].
    rewrite Ha, Hl. cbn. eexists. split; [reflexivity|]. split; [reflexivity|].
    by destruct (up !! S (S i)).
  - intros top Ht. rewrite Hafter, goals_from_above_lookup, Ht. cbn.
    rewrite (lookup_ge_None_2 up (S (height - 1))); [done|].
    apply lookup_lt_Some in Ht. lia.
  - destruct (sense_act_learn_events sensors reward m Hne) as (tl & -> & Htl).
    unfold chosen_events. fold up.
    exists (step_events (self m) sensors reward),
      (pass_down_events (length up - 1) up),
      (EvPrint (MsgActions (chosen_actions (self m) sensors reward)) :: tl).
    split; [by rewrite <- !app_assoc|].
    split; [apply bottom_up_events_length|].
    split; [apply bottom_up_events_steps|].
    split; [rewrite pass_down_events_length; [lia|]|].
    { destruct (levels (self m)) eqn:E; [done|]. subst height. cbn in Hup. lia. }
    split; [apply pass_down_events_sets|].
    by constructor.
Qed.
End Passes.

(** * The input of level 0 *)

Section Echo.
Context {A I : Type} `{AffectTracker A} `{LevelEngine I}.

Lemma step_inputs_app i evs evs' :
  step_inputs i (evs ++ evs') = (step_inputs i evs ++ step_inputs i evs')%list.
Proof.
  induction evs as [|ev evs IH]; cbn; [done|].
  destruct ev; try done. destruct (Nat.eqb i i0); cbn; by rewrite IH.
Qed.

Lemma step_inputs_no_step i evs :
  Forall (fun ev => is_step ev = false) evs -> step_inputs i evs = [].
Proof.
  induction 1 as [|ev evs Hev _ IH]; cbn; [done|].
  destruct ev; try done.
Qed.

Lemma bottom_up_inputs_above ls : forall i j ea r s,
  (i < j)%nat -> step_inputs i (bottom_up j ls ea r s).2 = [].
Proof.
  induction ls as [|l ls IH]; intros i j ea r s Hij; cbn; [done|].
  destruct (Level_step l ea r s) as [l' sa].
  specialize (IH i (S j) sa r s).
  destruct (bottom_up (S j) ls sa r s) as [[rest' out] evs]. cbn in *.
  destruct (Nat.eqb_spec i j); [lia|]. apply IH. lia.
Qed.

Lemma step_events_level0 (b : Brain A I) sensors reward :
  levels b <> [] ->
  step_inputs 0 (step_events b sensors reward) = [(sensors ++ actions b)%list].
Proof.
  unfold step_events. destruct (levels b) as [|l0 rest]; [done|intros _].
  cbn. destruct (Level_step l0 _ _ _) as [l' sa].
  pose proof (bottom_up_inputs_above rest 0 1 sa reward
                (Affect_update (affect b) reward).2) as Hrest.
  destruct (bottom_up 1 rest sa reward _) as [[rest' out] evs]. cbn in *.
  rewrite Hrest by lia. done.
Qed.

Lemma sense_act_learn_level0_input sensors reward (m : Machine A I) :
  levels (self m) <> [] ->
  step_inputs 0 (emitted (sense_act_learn sensors reward m))
  = [(sensors ++ actions (self m))%list].
Proof.
  intros Hne.
  destruct (sense_act_learn_events sensors reward m Hne) as (tl & -> & Htl).
  unfold chosen_events. rewrite !step_inputs_app, step_events_level0 by done.
  rewrite (step_inputs_no_step 0 (pass_down_events _ _)).
  - rewrite (step_inputs_no_step 0 tl); [done|].
    eapply Forall_impl; [exact Htl|]. by intros ev [? _].
  - eapply Forall_impl; [apply pass_down_events_sets|].
    intros ev Hev. by destruct ev.
Qed.

Lemma run_execs inputs (m : Machine A I) :
  run inputs m = execs (map (fun x => Sense x.1 x.2) inputs) m.
Proof.
  revert m. induction inputs as [|[sensors reward] rest IH]; intros m; [done|].
  cbn [run]. rewrite IH. reflexivity.
Qed.


Lemma run_levels_length inputs (m : Machine A I) :
  length (levels (self (run inputs m))) = length (levels (self m)).
Proof. rewrite run_execs. apply execs_levels_length. Qed.

End Echo.

(** * The returned action vector *)

Section Returned.
Context {A I : Type} `{AffectTracker A} `{LevelEngine I}.

Lemma binary_in_unit v : binary v -> in_unit v.
Proof. intros [->| ->]; split; discriminate. Qed.

Lemma drop_last_length a :
  Z.of_nat (length a) <> 0 ->
  Z.of_nat (length (drop_last a)) = Z.of_nat (length a) - 1.
Proof.
  unfold drop_last. destruct a as [|x a] using rev_ind; [done|].
  rewrite removelast_last, length_app. cbn. lia.
Qed.

Lemma drop_last_Forall (P : val -> Prop) a :
  Forall P a -> Forall P (drop_last a).
Proof.
  unfold drop_last. destruct a as [|x a _] using rev_ind; [done|].
  rewrite removelast_last. intros Ha. by apply Forall_app in Ha as [? _].
Qed.

Lemma chosen_actions_level0 (b : Brain A I) l0 rest sensors reward :
  levels b = l0 :: rest ->
  chosen_actions b sensors reward
  = element_goals
      (Level_step l0 (sensors ++ actions b) reward
         (Affect_update (affect b) reward).2).1.
Proof.
  intros E. unfold chosen_actions, stepped. rewrite E. cbn.
  destruct (Level_step l0 _ _ _) as [l' sa].
  by destruct (bottom_up 1 rest sa reward _) as [[rest' out] evs].
Qed.

Lemma benign_next pend : Forall benign pend -> benign (next_outcome pend).
Proof. destruct 1; [exact Logic.I|done]. Qed.

Lemma backup_returns (m : Machine A I) :
  Forall benign (pending m) -> exists ok, res (backup m) = Ret ok.
Proof.
  intros Hp. rewrite backup_result.
  pose proof (benign_next _ Hp) as H1.
  assert (Forall benign (tail (pending m))) as Hp'
    by (destruct Hp; [constructor|done]).
  pose proof (benign_next _ Hp') as H2.
  unfold benign in H1, H2.
  destruct (outcome_exn (next_outcome (pending m))) as [e|].
  - rewrite H1. eauto.
  - destruct (outcome_exn (next_outcome (tail (pending m)))) as [e|].
    + rewrite H2. eauto.
    + eauto.
Qed.

Lemma sense_act_learn_returns sensors reward (m : Machine A I) :
  levels (self m) <> [] ->
  backup_interval (self m) <> 0 ->
  Forall benign (pending m) ->
  res (sense_act_learn sensors reward m)
  = Ret (drop_last (chosen_actions (self m) sensors reward)).
Proof.
  intros Hne Hi Hp. rewrite sense_act_learn_unfold by done.
  unfold checkpoint_and_return, py_mod.
  cbn [with_self self chosen backup_interval timestep actions].
  destruct (Z.eqb_spec (backup_interval (self m)) 0) as [|_]; [done|].
  destruct (_ =? 0); [|done].
  match goal with |- context [backup ?m'] =>
    destruct (backup_returns m' Hp) as [ok Hok];
    pose proof (backup_self m') as Hs end.
  rewrite Hok. cbn [res]. by rewrite Hs.
Qed.

Lemma sense_act_learn_well_formed ns na sensors reward (m : Machine A I) :
  goals_are_actions ns na ->
  valid_sensors ns sensors ->
  well_formed ns na m ->
  well_formed ns na (final (sense_act_learn sensors reward m)).
Proof.
  intros Hc [Hlen Hunit] (Hne & Hns & Hna & Hi & Hal & Hab & Hp).
  destruct (sense_act_learn_pending sensors reward m) as [n Hn].
  unfold well_formed. rewrite sense_act_learn_self, Hn by done.
  cbn [chosen levels num_sensors num_actions backup_interval actions].
  destruct (levels (self m)) as [|l0 rest] eqn:E; [done|].
  rewrite (chosen_actions_level0 _ l0 rest) by done.
  destruct (Hc l0 (sensors ++ actions (self m))%list reward
              (Affect_update (affect (self m)) reward).2) as [Hgl Hgb].
  { rewrite length_app. lia. }
  { apply Forall_app. split; [done|].
    eapply Forall_impl; [exact Hab|]. apply binary_in_unit. }
  repeat split; try done.
  - intros Eg. apply (f_equal length) in Eg.
    rewrite goals_from_above_length, stepped_length, E in Eg. discriminate.
  - by apply Forall_drop.
Qed.

Lemma run_well_formed ns na inputs : forall (m : Machine A I),
  goals_are_actions ns na ->
  Forall (fun x => valid_sensors ns x.1) inputs ->
  well_formed ns na m ->
  well_formed ns na (run inputs m).
Proof.
  induction inputs as [|[sensors reward] rest IH]; intros m Hc Hv Hm; [done|].
  apply Forall_cons in Hv as [Hv Hrest]. cbn [run].
  apply IH; [done..|]. by apply sense_act_learn_well_formed.
Qed.

(** Claim C1: let the level engine keep the contract [goals_are_actions]
    and the configured action count be non-negative.  In a run from a
    freshly constructed brain, with valid sensors at every call and only
    caught failures of the writes, every call of [sense_act_learn] returns,
    and what it returns has [num_actions - 1] entries (the configured
    count), each of them 0 or 1. *)
Theorem sense_act_learn_returns_binary_actions ns na nm dir (b : Brain A I)
    fs pend inputs t sensors reward :
  0 <= na ->
  Brain_init ns na nm dir = Ret b ->
  goals_are_actions ns (na + 1) ->
  Forall (fun x => valid_sensors ns x.1) inputs ->
  Forall benign pend ->
  inputs !! t = Some (sensors, reward) ->
  exists returned,
    res (sense_act_learn sensors reward
           (run (take t inputs) (mkMachine b fs pend))) = Ret returned
    /\ Z.of_nat (length returned) = num_actions b - 1
    /\ num_actions b - 1 = na
    /\ Forall binary returned.
Proof.
  intros Hna0 Hb Hc Hv Hp Ht.
  apply Brain_init_inv in Hb as [Hna Hb].
  assert (well_formed ns (na + 1) (mkMachine b fs pend)) as Hwf.
  { subst b. unfold well_formed. cbn. repeat split; try done.
    - unfold np_zeros. rewrite repeat_length. lia.
    - unfold np_zeros. induction (Z.to_nat (na + 1)); cbn; constructor;
        [by left|done]. }
  assert (valid_sensors ns sensors) as Hs.
  { apply (Forall_lookup_1 _ _ _ _ Hv Ht). }
  pose proof (run_well_formed ns (na + 1) (take t inputs) _ Hc
                (Forall_take _ _ _ Hv) Hwf) as Hbefore.
  pose proof (sense_act_learn_well_formed ns (na + 1) sensors reward _ Hc Hs
                Hbefore) as (_ & _ & _ & _ & Hal & Hab & _).
  destruct Hbefore as (Hne & _ & _ & Hi & _ & _ & Hpb).
  rewrite sense_act_learn_self in Hal, Hab by done.
  cbn [chosen actions] in Hal, Hab.
  eexists. split; [by apply sense_act_learn_returns|].
  split; [|split].
  - rewrite drop_last_length by lia. rewrite Hal. subst b. cbn. lia.
  - subst b. cbn. lia.
  - by apply drop_last_Forall.
Qed.
End Returned.

(** * Saving and restoring *)

Section Persistence.
Context {A I : Type} `{AffectTracker A} `{LevelEngine I}.

Lemma append_same_l (p s : string) : p +:+ s = p -> s = "".
Proof. induction p as [|c p IH]; cbn; [done|]. intros [= E]. by apply IH. Qed.

Lemma bak_ne (p : string) : bak p <> p.
Proof. intros E. apply append_same_l in E. discriminate. Qed.


Lemma restore_missing (m : Machine A I) :
  files m !! pickle_filename (self m) = None ->
  restore m =
    mkOut (Ret (PyBrain (self m))) m
      [EvRead (pickle_filename (self m));
       EvPrint (MsgCouldntOpen (pickle_filename (self m)))].
Proof.
  intros E. unfold restore, bind, try_except, load_pickle. cbn.
  rewrite E. reflexivity.
Qed.

Lemma restore_corrupt (m : Machine A I) e :
  files m !! pickle_filename (self m) = Some (Corrupt e) ->
  res (restore m) =
    if io_or_serialization_failure e then Ret (PyBrain (self m)) else Raise e.
Proof.
  intros E. unfold restore, bind, try_except, load_pickle,
    io_or_serialization_failure. cbn. rewrite E. cbn.
  destruct (isinstance e IOError); cbn; [done|].
  destruct (isinstance e PickleError); done.
Qed.

Lemma restore_loaded (m : Machine A I) loaded :
  files m !! pickle_filename (self m) = Some (Pickled loaded) ->
  restore m =
    if (num_sensors loaded =? num_sensors (self m))
       && (num_actions loaded =? num_actions (self m))
    then
      mkOut (Ret (PyBrain loaded)) m
        [EvRead (pickle_filename (self m));
         EvPrint (MsgRestored (timestep loaded) (pickle_filename (self m)))]
    else
      mkOut (Ret (PyBrain (self m))) m
        [EvRead (pickle_filename (self m));
         EvPrint (MsgMismatch (pickle_filename (self m)))].
Proof.
  intros E. unfold restore, bind, try_except, load_pickle. cbn.
  rewrite E. cbn. by destruct (_ && _).
Qed.

Lemma restore_keeps_self_on_failure (m : Machine A I) :
  files m !! pickle_filename (self m) = None
  \/ (exists e,
        files m !! pickle_filename (self m) = Some (Corrupt e)
        /\ io_or_serialization_failure e = true) ->
  res (restore m) = Ret (PyBrain (self m)) /\ final (restore m) = m.
Proof.
  intros [E|(e & E & He)]; (split; [|apply restore_final]).
  - by rewrite restore_missing.
  - by rewrite (restore_corrupt m e), He.
Qed.

(** Claim C5, amended: when the primary checkpoint cannot be loaded (the
    file is missing, or its bytes make [pickle.load] raise an [IOError] or
    a [pickle.PickleError]), [restore] returns the brain it was called on,
    not [None]; no exception reaches the caller and the machine is as it
    was. *)
Theorem restore_load_failure_returns_self (m : Machine A I) :
  files m !! pickle_filename (self m) = None
  \/ (exists e,
        files m !! pickle_filename (self m) = Some (Corrupt e)
        /\ io_or_serialization_failure e = true) ->
  res (restore m) = Ret (PyBrain (self m))
  /\ res (restore m) <> Ret PyNone
  /\ final (restore m) = m.
Proof.
  intros Hfail. destruct (restore_keeps_self_on_failure m Hfail) as [Hr Hf].
  split; [done|]. split; [by rewrite Hr|done].
Qed.

(** Claim C6, amended: when the primary checkpoint loads, [restore] returns
    the loaded brain if and only if its [num_sensors] and [num_actions]
    both equal those of the brain it was called on; on a mismatch it prints
    the mismatch notice and returns the brain it was called on, not [None];
    in both cases the machine is as it was. *)
Theorem restore_accepts_only_matching_sizes (m : Machine A I) loaded :
  files m !! pickle_filename (self m) = Some (Pickled loaded) ->
  (res (restore m) = Ret (PyBrain loaded)
   <-> num_sensors loaded = num_sensors (self m)
       /\ num_actions loaded = num_actions (self m))
  /\ (num_sensors loaded <> num_sensors (self m)
      \/ num_actions loaded <> num_actions (self m) ->
      res (restore m) = Ret (PyBrain (self m))
      /\ EvPrint (MsgMismatch (pickle_filename (self m))) ∈ emitted (restore m))
  /\ final (restore m) = m.
Proof.
  intros E. rewrite (restore_loaded m loaded E).
  destruct (Z.eqb_spec (num_sensors loaded) (num_sensors (self m))) as [Es|Es];
    [destruct (Z.eqb_spec (num_actions loaded) (num_actions (self m)))
       as [Ea|Ea]|]; cbn [andb res final emitted].
  - split; [done|]. split; [|done]. intros [?|?]; done.
  - split; [|split; [|done]].
    + split; [|intros [_ ?]; done]. intros [= <-]. done.
    + intros _. split; [done|]. apply list_elem_of_In. cbn. auto.
  - split; [|split; [|done]].
    + split; [|intros [? _]; done]. intros [= <-]. done.
    + intros _. split; [done|]. apply list_elem_of_In. cbn. auto.
Qed.

(** Claim C7, amended: when the first write, and the second if it is
    reached, either completes or raises an [IOError] or a
    [pickle.PickleError] (or one of its subclasses), [backup] returns a
    boolean and raises nothing; the boolean is [True] exactly when both
    writes completed, [False] otherwise; the brain itself is not changed.
    Exceptions of other classes are not covered. *)
Theorem backup_catches_write_failures (m : Machine A I) :
  benign (next_outcome (pending m)) ->
  (next_outcome (pending m) = WriteOk ->
   benign (next_outcome (tail (pending m)))) ->
  exists success,
    res (backup m) = Ret success
    /\ (success = true
        <-> next_outcome (pending m) = WriteOk
            /\ next_outcome (tail (pending m)) = WriteOk)
    /\ self (final (backup m)) = self m.
Proof.
  intros H1 H2. rewrite backup_result, backup_self. unfold benign in *.
  destruct (next_outcome (pending m)) as [|e|e r]; cbn in *.
  - specialize (H2 eq_refl).
    destruct (next_outcome (tail (pending m))) as [|e|e r]; cbn in *.
    + exists true. done.
    + rewrite H2. exists false. repeat split; try done. by intros [_ ?].
    + rewrite H2. exists false. repeat split; try done. by intros [_ ?].
  - rewrite H1. exists false. repeat split; try done. by intros [? _].
  - rewrite H1. exists false. repeat split; try done. by intros [? _].
Qed.

End Persistence.

(** * The theorems on the sample objects *)

(** The sample brain is the one the constructor builds. *)
Lemma sample_brain_init :
  Brain_init 2 2 "test_brain" "becca/log" = Ret (sample_brain 2 2).
Proof. reflexivity. Defined.

(** The sample level keeps the contract of a brain with three action
    slots. *)
Lemma first_action_level_contract : goals_are_actions 2 3.
Proof.
  intros level ea reward sat _ _. cbn. split; [reflexivity|].
  constructor; [by right|]. constructor; [by left|].
  constructor; [by left|]. constructor.
Defined.

Lemma sample_inputs_valid :
  Forall (fun x => valid_sensors 2 x.1) sample_inputs.
Proof.
  unfold sample_inputs, valid_sensors, in_unit, Qle.
  repeat (constructor; cbn; try lia).
Defined.

Lemma sense_act_learn_returns_binary_actions_witness :
  exists returned,
    res (sense_act_learn [0%Q; 1%Q] 0%Q
           (run (take 1 sample_inputs) (sample_machine 2 2))) = Ret returned
    /\ Z.of_nat (length returned) = num_actions (sample_brain 2 2) - 1
    /\ num_actions (sample_brain 2 2) - 1 = 2
    /\ Forall binary returned.
Proof.
  apply (sense_act_learn_returns_binary_actions 2 2 "test_brain" "becca/log"
           (sample_brain 2 2) ∅ [] sample_inputs 1 [0%Q; 1%Q] 0%Q).
  - lia.
  - reflexivity.
  - exact first_action_level_contract.
  - exact sample_inputs_valid.
  - constructor.
  - reflexivity.
Defined.

Lemma timestep_counts_calls_witness :
  Brain_init 2 2 "test_brain" "becca/log" = Ret (sample_brain 2 2)
  /\ timestep (self (run sample_inputs (sample_machine 2 2))) = 2.
Proof.
  split; [reflexivity|].
  apply (timestep_counts_calls 2 2 "test_brain" "becca/log" (sample_brain 2 2)
           ∅ [] sample_inputs). reflexivity.
Defined.


Lemma goals_pass_down_after_steps_witness :
  res (sense_act_learn [1%Q; 0%Q] (1 # 2)%Q two_level_machine)
  = Ret [1%Q; 0%Q]
  /\ sequence_goals
       <$> levels
             (self (final (sense_act_learn [1%Q; 0%Q] (1 # 2)%Q
                             two_level_machine))) !! 0%nat
     = Some [1%Q; 0%Q; 0%Q].
Proof.
  assert (res (sense_act_learn [1%Q; 0%Q] (1 # 2)%Q two_level_machine)
          = Ret [1%Q; 0%Q]) as Hret by reflexivity.
  split; [exact Hret|].
  destruct (goals_pass_down_after_steps [1%Q; 0%Q] (1 # 2)%Q two_level_machine
              [1%Q; 0%Q] Hret) as (_ & _ & Hdown & _).
  assert (stepped (self two_level_machine) [1%Q; 0%Q] (1 # 2)%Q !! 1%nat
          = Some (mkLevel [1%Q; 0%Q; 0%Q] [] 1%nat)) as Hup by reflexivity.
  destruct (Hdown 0%nat _ Hup) as (level & Hl & Hg & _).
  rewrite Hl. cbn. by rewrite Hg.
Defined.

Lemma restore_load_failure_returns_self_witness :
  files (sample_machine 2 2) !! pickle_filename (self (sample_machine 2 2))
  = None
  /\ res (restore (sample_machine 2 2)) = Ret (PyBrain (sample_brain 2 2)).
Proof.
  split; [reflexivity|].
  apply (restore_load_failure_returns_self (sample_machine 2 2)).
  left. reflexivity.
Defined.

Lemma restore_accepts_only_matching_sizes_witness :
  files mismatched_machine !! pickle_filename (self mismatched_machine)
  = Some (Pickled (sample_brain 4 3))
  /\ final (restore mismatched_machine) = mismatched_machine.
Proof.
  split; [reflexivity|].
  apply (restore_accepts_only_matching_sizes mismatched_machine
           (sample_brain 4 3)). reflexivity.
Defined.

Lemma backup_catches_write_failures_witness :
  benign (next_outcome (pending failing_disk_machine))
  /\ exists success,
       res (backup failing_disk_machine) = Ret success
       /\ (success = true
           <-> next_outcome (pending failing_disk_machine) = WriteOk
               /\ next_outcome (tail (pending failing_disk_machine)) = WriteOk)
       /\ self (final (backup failing_disk_machine))
          = self failing_disk_machine.
Proof.
  split; [reflexivity|].
  apply (backup_catches_write_failures failing_disk_machine).
  - reflexivity.
  - cbn. discriminate.
Defined.


Lemma backup_exactly_on_multiples_witness :
  levels (self late_machine) <> []
  /\ backup_interval (self late_machine) <> 0
  /\ - 2 ^ 53 < timestep (self late_machine) + 1 < 2 ^ 53
  /\ (EvBackup ∈ emitted (sense_act_learn [1%Q; 0%Q] 0%Q late_machine)
      <-> (backup_interval (self late_machine)
           | timestep (self late_machine) + 1)).
Proof.
  assert (levels (self late_machine) <> []) as H1 by (cbn; discriminate).
  assert (backup_interval (self late_machine) <> 0) as H2 by (cbn; lia).
  assert (- 2 ^ 53 < timestep (self late_machine) + 1 < 2 ^ 53) as H3
    by (cbn; lia).
  split; [exact H1|]. split; [exact H2|]. split; [exact H3|].
  exact (backup_exactly_on_multiples [1%Q; 0%Q] 0%Q late_machine H1 H2 H3).
Defined.

Lemma brain_has_one_level_witness :
  Brain_init 2 2 "test_brain" "becca/log" = Ret (sample_brain 2 2)
  /\ levels (sample_brain 2 2) = [Level_new 0 5 15]
  /\ length
       (levels
          (self (execs [Sense [1%Q; 0%Q] 0%Q; Backup; Restore]
                   (sample_machine 2 2)))) = 1%nat.
Proof.
  split; [reflexivity|].
  destruct (brain_has_one_level 2 2 "test_brain" "becca/log" (sample_brain 2 2)
              sample_brain_init) as (Hl & _ & Hops).
  split; [exact Hl|]. apply Hops.
Defined.

(** ** Where the claims as stated fail *)


(** Claim C5 as stated: the checkpoint is missing, and [restore] returns
    the brain it was called on, which is not [None]. *)
Lemma restore_missing_file_is_not_None :
  files (sample_machine 2 2) !! pickle_filename (self (sample_machine 2 2))
  = None
  /\ res (restore (sample_machine 2 2)) = Ret (PyBrain (sample_brain 2 2))
  /\ res (restore (sample_machine 2 2)) <> Ret PyNone.
Proof.
  split; [reflexivity|]. split; [reflexivity|]. vm_compute. discriminate.
Qed.

(** Claim C6 as stated: a checkpoint for four sensors is loaded by a brain
    for five, and [restore] returns the brain it was called on, which is
    not [None]. *)
Lemma restore_mismatch_is_not_None :
  files mismatched_machine !! pickle_filename (self mismatched_machine)
  = Some (Pickled (sample_brain 4 3))
  /\ num_sensors (sample_brain 4 3) <> num_sensors (self mismatched_machine)
  /\ res (restore mismatched_machine) = Ret (PyBrain (sample_brain 5 3))
  /\ res (restore mismatched_machine) <> Ret PyNone.
Proof.
  split; [reflexivity|]. split; [cbn; lia|]. split; [reflexivity|].
  vm_compute. discriminate.
Qed.


(** Claim C7 as stated: the first write completes and the user interrupts
    the second; [backup] does not return [False], it raises
    [KeyboardInterrupt] to its caller. *)
Lemma backup_interrupted_does_not_return :
  next_outcome (pending interrupted_second_write_machine) = WriteOk
  /\ outcome_exn (next_outcome (tail (pending interrupted_second_write_machine)))
     = Some KeyboardInterrupt
  /\ res (backup interrupted_second_write_machine) = Raise KeyboardInterrupt
  /\ (forall success,
        res (backup interrupted_second_write_machine) <> Ret success).
Proof.
  split; [reflexivity|]. split; [reflexivity|]. split; [reflexivity|].
  intros success. vm_compute. discriminate.
Qed.

(** * Further properties of one call *)

Section Calls.
Context {A I : Type} `{AffectTracker A} `{LevelEngine I}.

(** The bottom-up loop as a pipeline. *)
Lemma bottom_up_chain ls : forall j ea r s i level,
  ls !! i = Some level ->
  exists ea_i,
    (bottom_up j ls ea r s).2 !! i = Some (EvStep (j + i) ea_i r s)
    /\ (bottom_up j ls ea r s).1.1 !! i = Some (Level_step level ea_i r s).1
    /\ (i = 0%nat -> ea_i = ea)
    /\ (forall above,
          ls !! S i = Some above ->
          (bottom_up j ls ea r s).2 !! S i
          = Some (EvStep (j + S i) (Level_step level ea_i r s).2 r s)).
Proof.
  induction ls as [|l ls IH]; intros j ea r s i level Hi; [done|].
  cbn [bottom_up].
  destruct (Level_step l ea r s) as [l' sa] eqn:El.
  destruct i as [|i].
  - injection Hi as <-. exists ea. rewrite El.
    destruct (bottom_up (S j) ls sa r s) as [[rest' out] evs] eqn:Eb.
    cbn. rewrite Nat.add_0_r. split; [done|]. split; [done|]. split; [done|].
    intros above Ha.
    destruct (IH (S j) sa r s 0%nat above Ha) as (ea0 & Hev & _ & Hz & _).
    rewrite Eb in Hev. cbn in Hev. cbn. rewrite (Hz eq_refl) in Hev.
    replace (j + 1)%nat with (S (j + 0)) by lia. exact Hev.
  - cbn in Hi.
    destruct (IH (S j) sa r s i level Hi) as (ea_i & Hev & Hl & Hz & Hnext).
    destruct (bottom_up (S j) ls sa r s) as [[rest' out] evs] eqn:Eb.
    cbn in *. exists ea_i.
    replace (j + S i)%nat with (S (j + i)) by lia.
    split; [done|]. split; [done|]. split; [lia|].
    intros above Ha. specialize (Hnext above Ha).
    replace (j + S (S i))%nat with (S (j + S i)) by lia. exact Hnext.
Qed.

(** Property X1: in one call every level is stepped exactly once, from level
    0 upwards, each time with the reward of the call and the satisfaction
    that [affect.update] has just returned; level 0 receives the sensors
    followed by [self.actions], every other level the sequence activities
    that the step of the level below returned. *)
Theorem levels_are_stepped_as_a_pipeline sensors reward (m : Machine A I) :
  levels (self m) <> [] ->
  let sat := (Affect_update (affect (self m)) reward).2 in
  exists steps rest,
    emitted (sense_act_learn sensors reward m) = (steps ++ rest)%list
    /\ Forall (fun ev => is_step ev = false) rest
    /\ length steps = length (levels (self m))
    /\ forall i level,
         levels (self m) !! i = Some level ->
         exists input,
           steps !! i = Some (EvStep i input reward sat)
           /\ stepped (self m) sensors reward !! i
              = Some (Level_step level input reward sat).1
           /\ (i = 0%nat -> input = (sensors ++ actions (self m))%list)
           /\ (forall above,
                 levels (self m) !! S i = Some above ->
                 steps !! S i
                 = Some (EvStep (S i) (Level_step level input reward sat).2
                           reward sat)).
Proof.
  intros Hne sat.
  destruct (sense_act_learn_events sensors reward m Hne) as (tl & -> & Htl).
  unfold chosen_events.
  exists (step_events (self m) sensors reward). eexists.
  split; [rewrite <- app_assoc; reflexivity|].
  split.
  { rewrite !Forall_app. split; [split|].
    - eapply Forall_impl; [apply pass_down_events_sets|].
      intros ev Hev. by destruct ev.
    - by constructor.
    - eapply Forall_impl; [exact Htl|]. by intros ev [? _]. }
  split; [apply bottom_up_events_length|].
  intros i level Hi. unfold step_events, stepped. fold sat.
  destruct (bottom_up_chain (levels (self m)) 0
              (sensors ++ actions (self m)) reward sat i level Hi)
    as (input & Hev & Hl & Hz & Hnext).
  exists input. repeat split; try done.
Qed.

(** Property X3: the top-down loop writes [sequence_goals] and nothing
    else: after a call every level has the element goals and the internal
    state that its own step left. *)
Theorem top_down_pass_changes_sequence_goals_only sensors reward
    (m : Machine A I) i (level : Level I) :
  levels (self (final (sense_act_learn sensors reward m))) !! i = Some level ->
  exists up,
    stepped (self m) sensors reward !! i = Some up
    /\ element_goals level = element_goals up
    /\ internals level = internals up.
Proof.
  destruct (levels (self m)) as [|l0 rest] eqn:E.
  - by rewrite sense_act_learn_no_level.
  - rewrite sense_act_learn_self by (rewrite E; done).
    cbn [chosen levels]. rewrite goals_from_above_lookup.
    destruct (stepped (self m) sensors reward !! i) as [up|]; [|done].
    cbn. intros [= <-]. exists up. split; [done|].
    by destruct (stepped (self m) sensors reward !! S i).
Qed.

(** Property X2: whatever the level engine does, a call on a brain with a
    level and a non-zero interval that meets no uncaught write failure
    returns the element goals of level 0, as the step of this call left
    them, without their last entry, and keeps the whole vector in
    [self.actions]; empty goals make it return the empty vector. *)
Theorem returned_vector_is_level0_goals_stripped sensors reward
    (m : Machine A I) level_0 rest :
  levels (self m) = level_0 :: rest ->
  backup_interval (self m) <> 0 ->
  Forall benign (pending m) ->
  let goals :=
    element_goals
      (Level_step level_0 (sensors ++ actions (self m)) reward
         (Affect_update (affect (self m)) reward).2).1 in
  res (sense_act_learn sensors reward m) = Ret (drop_last goals)
  /\ actions (self (final (sense_act_learn sensors reward m))) = goals
  /\ (goals = [] -> drop_last goals = [])
  /\ (goals <> [] ->
      exists reserved, goals = (drop_last goals ++ [reserved])%list).
Proof.
  intros E Hi Hp goals.
  assert (levels (self m) <> []) as Hne by (rewrite E; done).
  rewrite sense_act_learn_returns, sense_act_learn_self by done.
  cbn [chosen actions]. rewrite (chosen_actions_level0 _ level_0 rest) by done.
  fold goals. split; [done|]. split; [done|]. split; [by intros ->|].
  intros Hg. destruct goals as [|x g _] using rev_ind; [done|].
  exists x. unfold drop_last. by rewrite removelast_last.
Qed.

(** Property X4: on a brain whose list of levels is empty the call raises
    [IndexError] at [self.levels[0]]; by then the timestep has been
    incremented and the affect and satisfaction updated, while the actions,
    the files and the standard output are untouched. *)
Theorem sense_act_learn_without_levels sensors reward (m : Machine A I) :
  levels (self m) = [] ->
  let o := sense_act_learn sensors reward m in
  res o = Raise IndexError
  /\ timestep (self (final o)) = timestep (self m) + 1
  /\ affect (self (final o)) = (Affect_update (affect (self m)) reward).1
  /\ satisfaction (self (final o)) = (Affect_update (affect (self m)) reward).2
  /\ actions (self (final o)) = actions (self m)
  /\ files (final o) = files m
  /\ pending (final o) = pending m
  /\ emitted o = [].
Proof.
  intros E o. subst o. rewrite sense_act_learn_no_level by done.
  cbn. repeat split; done.
Qed.

(** Property X5: with [backup_interval] set to zero the call raises
    [ZeroDivisionError] at the backup test, after the levels were stepped
    and the actions chosen and printed; nothing is saved and no file is
    touched. *)
Theorem sense_act_learn_zero_interval sensors reward (m : Machine A I) :
  levels (self m) <> [] ->
  backup_interval (self m) = 0 ->
  let o := sense_act_learn sensors reward m in
  res o = Raise ZeroDivisionError
  /\ self (final o) = chosen (self m) sensors reward
  /\ files (final o) = files m
  /\ pending (final o) = pending m
  /\ emitted o = chosen_events (self m) sensors reward
  /\ EvBackup ∉ emitted o.
Proof.
  intros Hne Hi o. subst o. rewrite sense_act_learn_unfold by done.
  unfold checkpoint_and_return, py_mod.
  cbn [with_self self chosen backup_interval]. rewrite Hi. cbn.
  repeat split; try done. apply chosen_events_no_backup.
Qed.
End Calls.

(** * Further properties of the periodic backup *)

Section Period.
Context {A I : Type} `{AffectTracker A} `{LevelEngine I}.

(** Property X6: a call whose new timestep is not a multiple of the backup
    interval returns the chosen actions whatever the state of the disk,
    reads and writes no file and leaves the files as they were. *)
Theorem no_io_between_backups sensors reward (m : Machine A I) :
  levels (self m) <> [] ->
  backup_interval (self m) <> 0 ->
  - 2 ^ 53 < timestep (self m) + 1 < 2 ^ 53 ->
  ~ (backup_interval (self m) | timestep (self m) + 1) ->
  let o := sense_act_learn sensors reward m in
  res o = Ret (drop_last (chosen_actions (self m) sensors reward))
  /\ files (final o) = files m
  /\ pending (final o) = pending m
  /\ Forall (fun ev => forall path, ev <> EvWrite path /\ ev <> EvRead path)
       (emitted o).
Proof.
  intros Hne Hi Ht Hnd o. subst o. rewrite sense_act_learn_unfold by done.
  unfold checkpoint_and_return, py_mod.
  cbn [with_self self chosen timestep backup_interval actions].
  destruct (Z.eqb_spec (backup_interval (self m)) 0) as [|_]; [done|].
  rewrite float_of_int_exact by done.
  destruct (Z.eqb_spec ((timestep (self m) + 1) `mod` backup_interval (self m)) 0)
    as [E|_].
  { apply Z.mod_divide in E; done. }
  cbn. repeat split; try done.
  unfold chosen_events, step_events. rewrite !Forall_app. repeat split.
  - eapply Forall_impl; [apply bottom_up_events_steps|].
    intros ev Hev path. by destruct ev.
  - eapply Forall_impl; [apply pass_down_events_sets|].
    intros ev Hev path. by destruct ev.
  - by constructor.
Qed.

Lemma sense_act_learn_backup_written sensors reward (m : Machine A I) :
  levels (self m) <> [] ->
  backup_interval (self m) <> 0 ->
  - 2 ^ 53 < timestep (self m) + 1 < 2 ^ 53 ->
  (backup_interval (self m) | timestep (self m) + 1) ->
  next_outcome (pending m) = WriteOk ->
  next_outcome (tail (pending m)) = WriteOk ->
  let o := sense_act_learn sensors reward m in
  let p := pickle_filename (self m) in
  res o = Ret (drop_last (chosen_actions (self m) sensors reward))
  /\ files (final o) !! p = Some (Pickled (self (final o)))
  /\ files (final o) !! bak p = Some (Pickled (self (final o)))
  /\ timestep (self (final o)) = timestep (self m) + 1
  /\ actions (self (final o)) = chosen_actions (self m) sensors reward
  /\ pending (final o) = tail (tail (pending m)).
Proof.
  intros Hne Hi Ht Hd E1 E2 o p. subst o.
  rewrite sense_act_learn_unfold by done.
  unfold checkpoint_and_return, py_mod.
  cbn [with_self self chosen timestep backup_interval actions].
  destruct (Z.eqb_spec (backup_interval (self m)) 0) as [|_]; [done|].
  rewrite float_of_int_exact by done.
  apply Z.mod_divide in Hd; [|done]. rewrite Hd. cbn [Z.eqb].
  rewrite backup_both_written by done.
  cbn [res final files self pending pickle_filename actions timestep]. fold p.
  split; [done|].
  split; [rewrite lookup_insert_ne by apply bak_ne; apply lookup_insert_eq|].
  split; [apply lookup_insert_eq|]. done.
Qed.

(** Property X7: when the new timestep is a multiple of the interval and
    both writes succeed, the primary and the [.bak] file hold the brain as
    this very call leaves it, the timestep already incremented and the new
    actions in place, and the call returns as usual. *)
Theorem periodic_backup_stores_the_updated_brain sensors reward
    (m : Machine A I) :
  levels (self m) <> [] ->
  backup_interval (self m) <> 0 ->
  - 2 ^ 53 < timestep (self m) + 1 < 2 ^ 53 ->
  (backup_interval (self m) | timestep (self m) + 1) ->
  next_outcome (pending m) = WriteOk ->
  next_outcome (tail (pending m)) = WriteOk ->
  let o := sense_act_learn sensors reward m in
  let p := pickle_filename (self m) in
  res o = Ret (drop_last (chosen_actions (self m) sensors reward))
  /\ files (final o) !! p = Some (Pickled (self (final o)))
  /\ files (final o) !! bak p = Some (Pickled (self (final o)))
  /\ timestep (self (final o)) = timestep (self m) + 1
  /\ actions (self (final o)) = chosen_actions (self m) sensors reward
  /\ pending (final o) = tail (tail (pending m)).
Proof. apply sense_act_learn_backup_written. Qed.

(** Property X8: the result of [backup] is dropped by [sense_act_learn]:
    whether the writes succeed or fail with a caught exception, the call
    returns the same vector and leaves the same brain. *)
Theorem caught_backup_failure_does_not_show sensors reward (m : Machine A I)
    pend :
  levels (self m) <> [] ->
  backup_interval (self m) <> 0 ->
  Forall benign (pending m) ->
  Forall benign pend ->
  let other := mkMachine (self m) (files m) pend in
  res (sense_act_learn sensors reward m)
  = res (sense_act_learn sensors reward other)
  /\ self (final (sense_act_learn sensors reward m))
     = self (final (sense_act_learn sensors reward other)).
Proof.
  intros Hne Hi Hp Hp' other.
  rewrite !sense_act_learn_returns, !sense_act_learn_self by done. done.
Qed.

(** Property X9: an exception of the periodic backup that its handlers do
    not catch leaves [sense_act_learn] too, and the actions are not
    returned; the brain has nevertheless taken the step: its timestep,
    levels and actions are those of the completed call. *)
Theorem uncaught_backup_failure_leaves_brain_advanced sensors reward
    (m : Machine A I) e :
  levels (self m) <> [] ->
  backup_interval (self m) <> 0 ->
  - 2 ^ 53 < timestep (self m) + 1 < 2 ^ 53 ->
  (backup_interval (self m) | timestep (self m) + 1) ->
  outcome_exn (next_outcome (pending m)) = Some e ->
  io_or_serialization_failure e = false ->
  let o := sense_act_learn sensors reward m in
  res o = Raise e
  /\ self (final o) = chosen (self m) sensors reward
  /\ timestep (self (final o)) = timestep (self m) + 1.
Proof.
  intros Hne Hi Ht Hd He Hc o. subst o.
  rewrite sense_act_learn_self by done. split; [|done].
  rewrite sense_act_learn_unfold by done.
  unfold checkpoint_and_return, py_mod.
  cbn [with_self self chosen timestep backup_interval actions].
  destruct (Z.eqb_spec (backup_interval (self m)) 0) as [|_]; [done|].
  rewrite float_of_int_exact by done.
  apply Z.mod_divide in Hd; [|done]. rewrite Hd. cbn [Z.eqb].
  match goal with |- context [backup ?m'] =>
    pose proof (backup_result m') as Hr end.
  unfold with_self in *. cbn [pending] in Hr. rewrite He, Hc in Hr. by rewrite Hr.
Qed.

Lemma sense_act_learn_configuration sensors reward (m : Machine A I) :
  let b' := self (final (sense_act_learn sensors reward m)) in
  num_sensors b' = num_sensors (self m)
  /\ num_actions b' = num_actions (self m)
  /\ backup_interval b' = backup_interval (self m)
  /\ name b' = name (self m)
  /\ log_dir b' = log_dir (self m)
  /\ pickle_filename b' = pickle_filename (self m).
Proof.
  destruct (levels (self m)) as [|l0 rest] eqn:E.
  - by rewrite sense_act_learn_no_level.
  - by rewrite sense_act_learn_self by (rewrite E; done).
Qed.

Lemma execs_configuration os (m : Machine A I) :
  let b' := self (execs os m) in
  num_sensors b' = num_sensors (self m)
  /\ num_actions b' = num_actions (self m)
  /\ backup_interval b' = backup_interval (self m)
  /\ name b' = name (self m)
  /\ log_dir b' = log_dir (self m)
  /\ pickle_filename b' = pickle_filename (self m).
Proof.
  revert m. unfold execs.
  induction os as [|o os IH]; intros m; cbn [fold_left]; [done|].
  destruct (IH (exec o m)) as (-> & -> & -> & -> & -> & ->).
  destruct o as [sensors reward| |]; cbn [exec].
  - apply sense_act_learn_configuration.
  - by rewrite backup_self.
  - by rewrite restore_final.
Qed.

(** Property X16: no sequence of calls of [sense_act_learn], [backup] and
    [restore] changes [num_sensors], [num_actions], [backup_interval],
    [name], [log_dir] or [pickle_filename]. *)
Theorem configuration_never_changes os (m : Machine A I) :
  num_sensors (self (execs os m)) = num_sensors (self m)
  /\ num_actions (self (execs os m)) = num_actions (self m)
  /\ backup_interval (self (execs os m)) = backup_interval (self m)
  /\ name (self (execs os m)) = name (self m)
  /\ log_dir (self (execs os m)) = log_dir (self m)
  /\ pickle_filename (self (execs os m)) = pickle_filename (self m).
Proof. apply execs_configuration. Qed.

Lemma run_files_before_first_backup inputs : forall (m : Machine A I),
  levels (self m) <> [] ->
  backup_interval (self m) = 100000 ->
  0 <= timestep (self m) ->
  timestep (self m) + Z.of_nat (length inputs) < 100000 ->
  files (run inputs m) = files m /\ pending (run inputs m) = pending m.
Proof.
  induction inputs as [|[sensors reward] rest IH]; intros m Hne Hi Hpos Ht;
    [done|].
  cbn [run length] in *.
  assert (files (final (sense_act_learn sensors reward m)) = files m
          /\ pending (final (sense_act_learn sensors reward m)) = pending m)
    as [Ef Ep].
  { rewrite sense_act_learn_unfold by done.
    unfold checkpoint_and_return, py_mod.
    cbn [with_self self chosen timestep backup_interval actions].
    rewrite Hi. cbn [Z.eqb].
    rewrite float_of_int_exact by lia.
    rewrite Z.mod_small by lia.
    destruct (Z.eqb_spec (timestep (self m) + 1) 0); [lia|]. done. }
  destruct (sense_act_learn_configuration sensors reward m)
    as (_ & _ & Ei & _).
  rewrite <- Ef, <- Ep. apply IH.
  - intros E. apply (f_equal length) in E.
    rewrite sense_act_learn_levels_length in E. by destruct (levels (self m)).
  - by rewrite Ei.
  - rewrite sense_act_learn_timestep. lia.
  - rewrite sense_act_learn_timestep. lia.
Qed.

(** Property X20: a freshly constructed brain does not touch the disk during
    its first 99999 calls. *)
Theorem fresh_brain_writes_nothing_before_first_backup ns na nm dir
    (b : Brain A I) fs pend inputs :
  Brain_init ns na nm dir = Ret b ->
  Z.of_nat (length inputs) < 100000 ->
  files (run inputs (mkMachine b fs pend)) = fs
  /\ pending (run inputs (mkMachine b fs pend)) = pend.
Proof.
  intros Hb Hn. apply Brain_init_inv in Hb as [_ ->].
  apply (run_files_before_first_backup inputs (mkMachine _ fs pend));
    cbn; try done; lia.
Qed.

(** Property X19: the 100000th call on a freshly constructed brain is the
    first to save it: until then the files are as they were, and if both
    writes succeed the primary and the [.bak] file then hold the brain at
    timestep 100000. *)
Theorem first_backup_comes_with_call_100000 ns na nm dir (b : Brain A I)
    fs pend inputs sensors reward :
  Brain_init ns na nm dir = Ret b ->
  Z.of_nat (length inputs) = 99999 ->
  next_outcome pend = WriteOk ->
  next_outcome (tail pend) = WriteOk ->
  let before := run inputs (mkMachine b fs pend) in
  let o := sense_act_learn sensors reward before in
  files before = fs
  /\ timestep (self (final o)) = 100000
  /\ files (final o) !! pickle_filename b = Some (Pickled (self (final o)))
  /\ files (final o) !! bak (pickle_filename b)
     = Some (Pickled (self (final o))).
Proof.
  intros Hb Hn E1 E2 before o.
  apply Brain_init_inv in Hb as [_ Hb].
  destruct (run_files_before_first_backup inputs (mkMachine b fs pend))
    as [Hf Hp]; [subst b; cbn; try done; lia..|].
  fold before in Hf, Hp. cbn [files pending] in Hf, Hp.
  assert (timestep (self before) = 99999) as Ht.
  { unfold before. rewrite run_timestep. subst b. cbn. lia. }
  destruct (execs_configuration (map (fun x => Sense x.1 x.2) inputs)
              (mkMachine b fs pend)) as (_ & _ & Hi & _ & _ & Hpf).
  rewrite <- run_execs in Hi, Hpf. fold before in Hi, Hpf. cbn [self] in Hi, Hpf.
  assert (backup_interval (self before) = 100000) as Hi'
    by (rewrite Hi; by subst b).
  destruct (sense_act_learn_backup_written sensors reward before)
    as (_ & H1 & H2 & H3 & _).
  - intros E. apply (f_equal length) in E.
    unfold before in E. rewrite run_levels_length in E. subst b. discriminate.
  - lia.
  - lia.
  - rewrite Hi', Ht. by exists 1.
  - by rewrite Hp.
  - by rewrite Hp.
  - fold o in H1, H2, H3. rewrite Hpf in H1, H2. rewrite Ht in H3. done.
Qed.

(** Property X17: as long as level 0 keeps the contract
    [goals_are_actions] and the sensors are valid, the vector handed to
    level 0 in every call of a run from a fresh brain has exactly the
    [num_elements = num_sensors + num_actions] entries the level was
    constructed with, all of them between 0 and 1. *)
Theorem level0_input_has_the_constructed_width ns na nm dir (b : Brain A I)
    fs pend inputs t sensors reward :
  Brain_init ns na nm dir = Ret b ->
  goals_are_actions ns (na + 1) ->
  Forall (fun x => valid_sensors ns x.1) inputs ->
  Forall benign pend ->
  inputs !! t = Some (sensors, reward) ->
  exists input,
    step_inputs 0
      (emitted (sense_act_learn sensors reward
                  (run (take t inputs) (mkMachine b fs pend)))) = [input]
    /\ Z.of_nat (length input) = ns + (na + 1)
    /\ levels b = [Level_new 0 (Z.of_nat (length input))
                     (3 * Z.of_nat (length input))]
    /\ Forall in_unit input.
Proof.
  intros Hb Hc Hv Hp Ht.
  apply Brain_init_inv in Hb as [Hna Hb].
  assert (well_formed ns (na + 1) (mkMachine b fs pend)) as Hwf.
  { subst b. unfold well_formed. cbn. repeat split; try done.
    - unfold np_zeros. rewrite repeat_length. lia.
    - unfold np_zeros. induction (Z.to_nat (na + 1)); cbn; constructor;
        [by left|done]. }
  pose proof (Forall_lookup_1 _ _ _ _ Hv Ht) as [Hsl Hsu]. cbn in Hsl, Hsu.
  destruct (run_well_formed ns (na + 1) (take t inputs) _ Hc
              (Forall_take _ _ _ Hv) Hwf) as (Hne & _ & _ & _ & Hal & Hab & _).
  eexists. split; [by apply sense_act_learn_level0_input|].
  split; [rewrite length_app; lia|].
  split; [rewrite length_app, Nat2Z.inj_add, Hsl, Hal; by subst b|].
  apply Forall_app. split; [done|].
  eapply Forall_impl; [exact Hab|]. apply binary_in_unit.
Qed.
End Period.

(** * Further properties of [backup], [restore] and [random_actions] *)

Section Disk.
Context {A I : Type} `{AffectTracker A} `{LevelEngine I}.

Lemma backup_first_write_fails (m : Machine A I) e :
  outcome_exn (next_outcome (pending m)) = Some e ->
  backup m
  = mkOut (if io_or_serialization_failure e then Ret false else Raise e)
      (mkMachine (self m)
         match next_outcome (pending m) with
         | DumpRaises _ r => <[pickle_filename (self m) := Corrupt r]> (files m)
         | _ => files m
         end
         (tail (pending m)))
      ([EvBackup; EvWrite (pickle_filename (self m))]
       ++ (if isinstance e IOError then [EvPrint (MsgFileError e)]
           else if isinstance e PickleError then [EvPrint (MsgPicklingError e)]
           else [])).
Proof.
  intros He. unfold backup, bind, try_except, write_pickle,
    io_or_serialization_failure. cbn.
  destruct (next_outcome (pending m)) as [|e'|e' r']; cbn in *; [done|..];
    injection He as ->;
    (destruct (isinstance e IOError); cbn;
     [|destruct (isinstance e PickleError); cbn]); reflexivity.
Qed.

(** Property X10: when the first write of [backup] fails, the second is not
    attempted: the [.bak] file is never opened and keeps what it held.  If
    it was [open] that failed the primary file is untouched as well; if it
    was [dump], the primary file is left with the bytes written so far. *)
Theorem failed_first_write_skips_the_second (m : Machine A I) e :
  outcome_exn (next_outcome (pending m)) = Some e ->
  let p := pickle_filename (self m) in
  (EvWrite (bak p) ∉ emitted (backup m))
  /\ files (final (backup m)) !! bak p = files m !! bak p
  /\ (next_outcome (pending m) = OpenRaises e ->
      files (final (backup m)) = files m)
  /\ (forall r,
        next_outcome (pending m) = DumpRaises e r ->
        files (final (backup m)) = <[p := Corrupt r]> (files m))
  /\ pending (final (backup m)) = tail (pending m).
Proof.
  intros He p. rewrite (backup_first_write_fails m e He).
  cbn [emitted final files pending]. fold p.
  split; [|split; [|split; [|split]]].
  - rewrite elem_of_app, !elem_of_cons, elem_of_nil.
    intros [[E|[E|[]]]|Hin]; [discriminate| |].
    + injection E as E. by apply bak_ne in E.
    + destruct (isinstance e IOError);
        [|destruct (isinstance e PickleError)];
        rewrite ?elem_of_cons, ?elem_of_nil in Hin;
        try destruct Hin as [Hin|[]]; try discriminate; done.
  - destruct (next_outcome (pending m)); try done.
    rewrite lookup_insert_ne; [done|].
    intros E. symmetry in E. by apply bak_ne in E.
  - by intros ->.
  - by intros r ->.
  - done.
Qed.

(** Property X12: an exception raised by either write that is neither an
    [IOError] nor a [pickle.PickleError] (a [KeyboardInterrupt], say) is not
    caught: [backup] raises it, prints nothing and leaves the brain as it
    was. *)
Theorem backup_lets_other_exceptions_through (m : Machine A I) e :
  outcome_exn (next_outcome (pending m)) = Some e
  \/ (next_outcome (pending m) = WriteOk
      /\ outcome_exn (next_outcome (tail (pending m))) = Some e) ->
  io_or_serialization_failure e = false ->
  res (backup m) = Raise e
  /\ Forall (fun ev => forall msg, ev <> EvPrint msg) (emitted (backup m))
  /\ self (final (backup m)) = self m.
Proof.
  intros Hw Hc. split; [|split; [|apply backup_self]].
  - rewrite backup_result.
    destruct Hw as [-> | [-> ->]]; cbn; by rewrite Hc.
  - unfold io_or_serialization_failure in Hc.
    apply orb_false_iff in Hc as [Hio Hpk].
    unfold backup, bind, try_except, write_pickle. cbn.
    destruct Hw as [He | [E1 He]].
    + destruct (next_outcome (pending m)) as [|e'|e' r']; cbn in *; [done|..];
        injection He as ->; rewrite Hio, Hpk; cbn; repeat constructor; done.
    + rewrite E1. cbn.
      destruct (next_outcome (tail (pending m))) as [|e'|e' r']; cbn in *;
        [done|..];
        injection He as ->; rewrite Hio, Hpk; cbn; repeat constructor; done.
Qed.

Lemma backup_second_write_fails (m : Machine A I) e :
  next_outcome (pending m) = WriteOk ->
  outcome_exn (next_outcome (tail (pending m))) = Some e ->
  files (final (backup m)) !! pickle_filename (self m)
  = Some (Pickled (self m)).
Proof.
  intros E1 He. unfold backup, bind, try_except, write_pickle. cbn.
  rewrite E1. cbn.
  destruct (next_outcome (tail (pending m))) as [|e'|e' r']; cbn in *;
    [done|..]; injection He as ->;
    (destruct (isinstance e IOError); cbn;
     [|destruct (isinstance e PickleError); cbn]);
    rewrite ?lookup_insert_ne by apply bak_ne; apply lookup_insert_eq.
Qed.

(** Property X11: when the first write succeeds and the second fails, in
    whatever way, the primary file holds the whole brain, and [restore] of
    a brain of the same sizes at the same path returns it. *)
Theorem failed_second_write_keeps_the_primary (m : Machine A I) e :
  next_outcome (pending m) = WriteOk ->
  outcome_exn (next_outcome (tail (pending m))) = Some e ->
  let p := pickle_filename (self m) in
  let disk := files (final (backup m)) in
  res (backup m) = (if io_or_serialization_failure e then Ret false else Raise e)
  /\ disk !! p = Some (Pickled (self m))
  /\ forall (fresh : Brain A I) pend,
       pickle_filename fresh = p ->
       num_sensors fresh = num_sensors (self m) ->
       num_actions fresh = num_actions (self m) ->
       res (restore (mkMachine fresh disk pend)) = Ret (PyBrain (self m)).
Proof.
  intros E1 He p disk.
  pose proof (backup_second_write_fails m e E1 He) as Hp.
  split; [rewrite backup_result, E1; cbn; by rewrite He|].
  split; [done|].
  intros fresh pend Ep Es Ea.
  rewrite (restore_loaded _ (self m)) by (cbn [files self]; by rewrite Ep).
  cbn [self]. by rewrite Es, Ea, !Z.eqb_refl.
Qed.

(** Property X13: save then restore is a round trip: after a backup whose
    writes succeed, [restore] of any brain with the same file name and the
    same sizes returns exactly the saved brain, prints its timestep and
    changes nothing; this holds for the saved brain itself. *)
Theorem backup_then_restore_round_trip (m : Machine A I) (fresh : Brain A I)
    pend :
  next_outcome (pending m) = WriteOk ->
  next_outcome (tail (pending m)) = WriteOk ->
  pickle_filename fresh = pickle_filename (self m) ->
  num_sensors fresh = num_sensors (self m) ->
  num_actions fresh = num_actions (self m) ->
  let later := mkMachine fresh (files (final (backup m))) pend in
  restore later
  = mkOut (Ret (PyBrain (self m))) later
      [EvRead (pickle_filename (self m));
       EvPrint (MsgRestored (timestep (self m)) (pickle_filename (self m)))]
  /\ res (restore (final (backup m))) = Ret (PyBrain (self m)).
Proof.
  intros E1 E2 Ep Es Ea later.
  assert (files (final (backup m)) !! pickle_filename (self m)
          = Some (Pickled (self m))) as Hp.
  { rewrite backup_both_written by done. cbn [final files].
    rewrite lookup_insert_ne by apply bak_ne. apply lookup_insert_eq. }
  split.
  - rewrite (restore_loaded later (self m)) by (cbn [later files self]; by rewrite Ep).
    cbn [later self]. by rewrite Es, Ea, !Z.eqb_refl, Ep.
  - rewrite (restore_loaded _ (self m)) by by rewrite backup_self.
    by rewrite backup_self, !Z.eqb_refl.
Qed.

(** Property X14: [restore] is read-only: in every case, whether it returns
    or raises, it leaves the brain, the files and the pending writes as
    they were, opens the primary path once and no other file, and prints at
    most one notice, none when it raises. *)
Theorem restore_only_reads_the_primary (m : Machine A I) :
  final (restore m) = m
  /\ exists printed,
       emitted (restore m) = EvRead (pickle_filename (self m)) :: printed
       /\ Forall (fun ev => exists msg, ev = EvPrint msg) printed
       /\ (length printed <= 1)%nat
       /\ (forall e, res (restore m) = Raise e -> printed = []).
Proof.
  split; [apply restore_final|].
  unfold restore, bind, try_except, load_pickle. cbn.
  destruct (files m !! pickle_filename (self m)) as [[lb|e]|]; cbn.
  - destruct (_ && _); cbn; eexists; (split; [reflexivity|]);
      (split; [repeat constructor; eauto|]); (split; [cbn; lia|]); done.
  - destruct (isinstance e IOError); cbn;
      [|destruct (isinstance e PickleError); cbn];
      eexists; (split; [reflexivity|]);
      (split; [repeat constructor; eauto|]); (split; [cbn; lia|]); done.
  - eexists; (split; [reflexivity|]);
      (split; [repeat constructor; eauto|]); (split; [cbn; lia|]); done.
Qed.

(** Property X15: when the primary file makes [pickle.load] raise an
    exception that is neither an [IOError] nor a [pickle.PickleError] (an
    [EOFError] on a truncated file, say), [restore] does not catch it: the
    exception reaches the caller and nothing is printed. *)
Theorem restore_lets_other_exceptions_through (m : Machine A I) e :
  files m !! pickle_filename (self m) = Some (Corrupt e) ->
  io_or_serialization_failure e = false ->
  restore m = mkOut (Raise e) m [EvRead (pickle_filename (self m))].
Proof.
  intros E Hc. unfold io_or_serialization_failure in Hc.
  apply orb_false_iff in Hc as [Hio Hpk].
  unfold restore, bind, try_except, load_pickle. cbn. rewrite E. cbn.
  by rewrite Hio, Hpk.
Qed.

End Disk.

(** * The further properties on the sample objects *)

Lemma levels_are_stepped_as_a_pipeline_witness :
  levels (self two_level_machine) <> []
  /\ exists steps rest,
       emitted (sense_act_learn [1%Q; 0%Q] (1 # 2)%Q two_level_machine)
       = (steps ++ rest)%list
       /\ length steps = 2%nat.
Proof.
  assert (levels (self two_level_machine) <> []) as Hne by (cbn; discriminate).
  split; [exact Hne|].
  destruct (levels_are_stepped_as_a_pipeline [1%Q; 0%Q] (1 # 2)%Q
              two_level_machine Hne) as (steps & rest & He & _ & Hl & _).
  exists steps, rest. split; [exact He|exact Hl].
Defined.

Lemma returned_vector_is_level0_goals_stripped_witness :
  levels (self (sample_machine 2 2))
  = [Level_new 0 5 15]
  /\ res (sense_act_learn [1%Q; 0%Q] 0%Q (sample_machine 2 2))
     = Ret [1%Q; 0%Q].
Proof.
  split; [reflexivity|].
  destruct (returned_vector_is_level0_goals_stripped [1%Q; 0%Q] 0%Q
              (sample_machine 2 2) (Level_new 0 5 15) []) as [Hr _].
  - reflexivity.
  - cbn. lia.
  - constructor.
  - exact Hr.
Defined.

Lemma top_down_pass_changes_sequence_goals_only_witness :
  levels
    (self (final (sense_act_learn [1%Q; 0%Q] (1 # 2)%Q two_level_machine)))
    !! 0%nat
  = Some (mkLevel [1%Q; 0%Q; 0%Q] [1%Q; 0%Q; 0%Q] 1%nat)
  /\ exists up,
       stepped (self two_level_machine) [1%Q; 0%Q] (1 # 2)%Q !! 0%nat = Some up
       /\ [1%Q; 0%Q; 0%Q] = element_goals up
       /\ 1%nat = internals up.
Proof.
  assert (levels
            (self (final (sense_act_learn [1%Q; 0%Q] (1 # 2)%Q
                            two_level_machine))) !! 0%nat
          = Some (mkLevel [1%Q; 0%Q; 0%Q] [1%Q; 0%Q; 0%Q] 1%nat)) as Hl
    by reflexivity.
  split; [exact Hl|].
  exact (top_down_pass_changes_sequence_goals_only [1%Q; 0%Q] (1 # 2)%Q
           two_level_machine 0 _ Hl).
Defined.

Lemma sense_act_learn_without_levels_witness :
  levels (self no_level_machine) = []
  /\ res (sense_act_learn [1%Q; 0%Q] 0%Q no_level_machine) = Raise IndexError
  /\ timestep (self (final (sense_act_learn [1%Q; 0%Q] 0%Q no_level_machine)))
     = timestep (self no_level_machine) + 1.
Proof.
  split; [reflexivity|].
  destruct (sense_act_learn_without_levels [1%Q; 0%Q] 0%Q no_level_machine
              eq_refl) as (Hr & Ht & _).
  split; [exact Hr|exact Ht].
Defined.

Lemma sense_act_learn_zero_interval_witness :
  levels (self zero_interval_machine) <> []
  /\ backup_interval (self zero_interval_machine) = 0
  /\ res (sense_act_learn [1%Q; 0%Q] 0%Q zero_interval_machine)
     = Raise ZeroDivisionError.
Proof.
  assert (levels (self zero_interval_machine) <> []) as Hne
    by (cbn; discriminate).
  split; [exact Hne|]. split; [reflexivity|].
  apply (sense_act_learn_zero_interval [1%Q; 0%Q] 0%Q zero_interval_machine
           Hne eq_refl).
Defined.

Lemma no_io_between_backups_witness :
  levels (self (sample_machine 2 2)) <> []
  /\ backup_interval (self (sample_machine 2 2)) <> 0
  /\ - 2 ^ 53 < timestep (self (sample_machine 2 2)) + 1 < 2 ^ 53
  /\ ~ (backup_interval (self (sample_machine 2 2))
        | timestep (self (sample_machine 2 2)) + 1)
  /\ files (final (sense_act_learn [1%Q; 0%Q] 0%Q (sample_machine 2 2)))
     = files (sample_machine 2 2).
Proof.
  assert (levels (self (sample_machine 2 2)) <> []) as H1
    by (cbn; discriminate).
  assert (backup_interval (self (sample_machine 2 2)) <> 0) as H2
    by (cbn; lia).
  assert (- 2 ^ 53 < timestep (self (sample_machine 2 2)) + 1 < 2 ^ 53) as H3
    by (cbn; lia).
  assert (~ (backup_interval (self (sample_machine 2 2))
             | timestep (self (sample_machine 2 2)) + 1)) as H4.
  { cbn. intros [k Hk]. lia. }
  split; [exact H1|]. split; [exact H2|]. split; [exact H3|].
  split; [exact H4|].
  apply (no_io_between_backups [1%Q; 0%Q] 0%Q (sample_machine 2 2) H1 H2 H3 H4).
Defined.

Lemma late_machine_is_due :
  levels (self late_machine) <> []
  /\ backup_interval (self late_machine) <> 0
  /\ - 2 ^ 53 < timestep (self late_machine) + 1 < 2 ^ 53
  /\ (backup_interval (self late_machine) | timestep (self late_machine) + 1).
Proof.
  split; [cbn; discriminate|]. split; [cbn; lia|]. split; [cbn; lia|].
  exists 1. reflexivity.
Defined.

Lemma periodic_backup_stores_the_updated_brain_witness :
  next_outcome (pending late_machine) = WriteOk
  /\ next_outcome (tail (pending late_machine)) = WriteOk
  /\ timestep (self (final (sense_act_learn [1%Q; 0%Q] 0%Q late_machine)))
     = timestep (self late_machine) + 1.
Proof.
  split; [reflexivity|]. split; [reflexivity|].
  destruct late_machine_is_due as (H1 & H2 & H3 & H4).
  apply (periodic_backup_stores_the_updated_brain [1%Q; 0%Q] 0%Q late_machine
           H1 H2 H3 H4 eq_refl eq_refl).
Defined.

Lemma caught_backup_failure_does_not_show_witness :
  Forall benign [OpenRaises IOError]
  /\ res (sense_act_learn [1%Q; 0%Q] 0%Q late_machine)
     = res (sense_act_learn [1%Q; 0%Q] 0%Q
              (mkMachine (self late_machine) (files late_machine)
                 [OpenRaises IOError])).
Proof.
  assert (Forall benign [OpenRaises IOError]) as Hb
    by (constructor; [reflexivity|constructor]).
  split; [exact Hb|].
  destruct late_machine_is_due as (H1 & H2 & _).
  apply (caught_backup_failure_does_not_show [1%Q; 0%Q] 0%Q late_machine
           [OpenRaises IOError] H1 H2).
  - constructor.
  - exact Hb.
Defined.

Lemma uncaught_backup_failure_leaves_brain_advanced_witness :
  outcome_exn (next_outcome (pending interrupted_late_machine))
  = Some KeyboardInterrupt
  /\ io_or_serialization_failure KeyboardInterrupt = false
  /\ res (sense_act_learn [1%Q; 0%Q] 0%Q interrupted_late_machine)
     = Raise KeyboardInterrupt.
Proof.
  split; [reflexivity|]. split; [reflexivity|].
  destruct late_machine_is_due as (H1 & H2 & H3 & H4).
  apply (uncaught_backup_failure_leaves_brain_advanced [1%Q; 0%Q] 0%Q
           interrupted_late_machine KeyboardInterrupt H1 H2 H3 H4
           eq_refl eq_refl).
Defined.

Lemma fresh_brain_writes_nothing_before_first_backup_witness :
  Brain_init 2 2 "test_brain" "becca/log" = Ret (sample_brain 2 2)
  /\ Z.of_nat (length sample_inputs) < 100000
  /\ files (run sample_inputs (sample_machine 2 2)) = ∅.
Proof.
  split; [reflexivity|]. split; [cbn; lia|].
  apply (fresh_brain_writes_nothing_before_first_backup 2 2 "test_brain"
           "becca/log" (sample_brain 2 2) ∅ [] sample_inputs).
  - reflexivity.
  - cbn. lia.
Defined.

Lemma first_backup_comes_with_call_100000_witness :
  Z.of_nat (length quiet_inputs) = 99999
  /\ timestep
       (self (final (sense_act_learn [1%Q; 0%Q] 0%Q
                       (run quiet_inputs (sample_machine 2 2))))) = 100000.
Proof.
  assert (Z.of_nat (length quiet_inputs) = 99999) as Hn
    by (unfold quiet_inputs; rewrite repeat_length; lia).
  split; [exact Hn|].
  apply (first_backup_comes_with_call_100000 2 2 "test_brain" "becca/log"
           (sample_brain 2 2) ∅ [] quiet_inputs [1%Q; 0%Q] 0%Q);
    [reflexivity|exact Hn|reflexivity|reflexivity].
Defined.

Lemma level0_input_has_the_constructed_width_witness :
  exists input,
    step_inputs 0
      (emitted (sense_act_learn [0%Q; 1%Q] 0%Q
                  (run (take 1 sample_inputs) (sample_machine 2 2)))) = [input]
    /\ Z.of_nat (length input) = 2 + (2 + 1).
Proof.
  destruct (level0_input_has_the_constructed_width 2 2 "test_brain" "becca/log"
              (sample_brain 2 2) ∅ [] sample_inputs 1 [0%Q; 1%Q] 0%Q)
    as (input & Hi & Hl & _).
  - reflexivity.
  - exact first_action_level_contract.
  - exact sample_inputs_valid.
  - constructor.
  - reflexivity.
  - exists input. split; [exact Hi|exact Hl].
Defined.

Lemma failed_first_write_skips_the_second_witness :
  outcome_exn (next_outcome (pending failing_disk_machine)) = Some IOError
  /\ files (final (backup failing_disk_machine)) = files failing_disk_machine.
Proof.
  split; [reflexivity|].
  destruct (failed_first_write_skips_the_second failing_disk_machine IOError
              eq_refl) as (_ & _ & Hopen & _).
  apply Hopen. reflexivity.
Defined.

Lemma failed_second_write_keeps_the_primary_witness :
  next_outcome (pending half_failing_machine) = WriteOk
  /\ outcome_exn (next_outcome (tail (pending half_failing_machine)))
     = Some IOError
  /\ res (backup half_failing_machine) = Ret false
  /\ files (final (backup half_failing_machine))
       !! "becca/log/test_brain.pickle"
     = Some (Pickled (self half_failing_machine)).
Proof.
  split; [reflexivity|]. split; [reflexivity|].
  destruct (failed_second_write_keeps_the_primary half_failing_machine IOError
              eq_refl eq_refl) as (Hr & Hp & _).
  split; [exact Hr|exact Hp].
Defined.

Lemma backup_lets_other_exceptions_through_witness :
  outcome_exn (next_outcome (pending interrupted_machine))
  = Some KeyboardInterrupt
  /\ io_or_serialization_failure KeyboardInterrupt = false
  /\ res (backup interrupted_machine) = Raise KeyboardInterrupt.
Proof.
  split; [reflexivity|]. split; [reflexivity|].
  apply (backup_lets_other_exceptions_through interrupted_machine
           KeyboardInterrupt (or_introl eq_refl) eq_refl).
Defined.

Lemma backup_then_restore_round_trip_witness :
  next_outcome (pending saved_machine) = WriteOk
  /\ next_outcome (tail (pending saved_machine)) = WriteOk
  /\ res (restore (mkMachine (sample_brain 2 2)
                     (files (final (backup saved_machine))) []))
     = Ret (PyBrain (self saved_machine)).
Proof.
  split; [reflexivity|]. split; [reflexivity|].
  destruct (backup_then_restore_round_trip saved_machine (sample_brain 2 2) []
              eq_refl eq_refl eq_refl eq_refl eq_refl) as [Hr _].
  rewrite Hr. reflexivity.
Defined.

Lemma restore_lets_other_exceptions_through_witness :
  files truncated_machine !! pickle_filename (self truncated_machine)
  = Some (Corrupt EOFError)
  /\ io_or_serialization_failure EOFError = false
  /\ restore truncated_machine
     = mkOut (Raise EOFError) truncated_machine
         [EvRead (pickle_filename (self truncated_machine))].
Proof.
  split; [reflexivity|]. split; [reflexivity|].
  apply (restore_lets_other_exceptions_through truncated_machine EOFError);
    reflexivity.
Defined.
